(** * TLS client-policy factories of scrapy/core/downloader/contextfactory.py

    A shallow embedding of the context factories and of the
    settings-to-factory resolver.  Python objects that the code allocates
    or mutates (factory instances, OpenSSL contexts, per-connection TLS
    options) live in an explicit heap; functions that allocate, mutate,
    warn or raise run in a small state-and-exception monad [M].  The
    attributes of the [OpenSSL.SSL] module are a finite map from names to
    integers, so that [getattr(SSL, name, default)] is a map lookup. *)

From Stdlib Require Import ZArith String List Ascii Bool Lia.
From Stdlib.Strings Require Import Byte.
From stdpp Require Import base option gmap strings list.

Local Open Scope Z_scope.
Local Open Scope string_scope.
Local Open Scope list_scope.

(** ** Exceptions and results *)

(** What made a [TypeError]: the call machinery rejecting a keyword the
    callee's signature lacks, or anything else (a bad operand, a [None]
    where an object was expected, ...). *)
Inductive type_error_cause :=
| UnexpectedKeyword (kw : string)
| OtherTypeError (msg : string).

Inductive exn :=
| AttributeError (name : string)
| KeyError (key : option string)
| TypeError (cause : type_error_cause)
| UnicodeDecodeError (codec : string) (pos : nat)
| Invalid (why : string)
| Raised (cls msg : string).

Inductive result (A : Type) :=
| Ok (a : A)
| Err (e : exn).
Arguments Ok {A} a.
Arguments Err {A} e.

Definition is_TypeError (e : exn) : bool :=
  match e with TypeError _ => true | _ => false end.

(** A failure "because the constructor does not accept a [method]
    parameter". *)
Definition is_signature_mismatch (e : exn) : bool :=
  match e with
  | TypeError (UnexpectedKeyword kw) => String.eqb kw "method"
  | _ => false
  end.

(** ** Data *)

Definition loc := nat.
Definition bytes := list byte.

(** A parameter with a default, as a call fills it: left out, or passed
    with a value. *)
Inductive argument (A : Type) : Type :=
| Omitted
| Passed (a : A).
Arguments Omitted {A}.
Arguments Passed {A} a.

(** [twisted.internet.ssl.AcceptableCiphers]: an ordered list of cipher
    names. *)
Record AcceptableCiphers := { cipher_names : list string }.

(** [twisted.internet.ssl.CertificateOptions], the four keyword arguments
    this module passes.  A value of this type stands for the call
    [CertificateOptions(verify=..., method=..., fixBrokenPeers=...,
    acceptableCiphers=...)]; what Twisted's constructor makes of the
    arguments (it can reject a method it does not know or a cipher policy
    that names no cipher) is Twisted's and is not part of the model. *)
Record CertificateOptions := {
  verify : bool;
  method : Z;
  fixBrokenPeers : bool;
  acceptableCiphers : AcceptableCiphers
}.

(** [OpenSSL.SSL.Context], as far as this module acts on it: the
    certificate options it was made from, the arguments of the
    [set_options] calls in call order, and the acceptable protocols. *)
Record Context := {
  ctx_source : CertificateOptions;
  ctx_applied_options : list Z;
  ctx_protocols : option (list bytes)
}.

(** Modelled from the spec: [ScrapyClientTLSOptions] of
    scrapy/core/downloader/tls.py is not among the sources; the
    per-connection config "carries hostname, the handshake context, [the]
    verbose-logging flag". *)
Record ClientTLSOptions := {
  _hostname : string;
  _ctx : loc;
  verbose_logging : bool
}.

(** Instance state of [ScrapyClientContextFactory]. *)
Record FactoryState := {
  _ssl_method : Z;
  tls_verbose_logging : bool;
  tls_ciphers : AcceptableCiphers
}.

Inductive cell :=
| CFactory (f : FactoryState)
| CContext (c : Context)
| CTLSOptions (o : ClientTLSOptions).

Record warning := { category : string; message : string }.

(** The heap is addressed by position; allocation appends. *)
Record world := { heap : list cell; warnings : list warning }.

Definition empty_world : world := {| heap := []; warnings := [] |}.

(** ** The monad *)

Definition M (A : Type) : Type := world -> result A * world.

Definition ret {A} (a : A) : M A := fun w => (Ok a, w).
Definition raise {A} (e : exn) : M A := fun w => (Err e, w).
Definition bind {A B} (c : M A) (k : A -> M B) : M B :=
  fun w => match c w with
           | (Ok a, w') => k a w'
           | (Err e, w') => (Err e, w')
           end.
Definition lift {A} (r : result A) : M A := fun w => (r, w).

Notation "x <- c ;; k" := (bind c (fun x => k))
  (at level 100, c at next level, right associativity).
Notation "c ;;; k" := (bind c (fun _ => k))
  (at level 100, right associativity).

Definition alloc (c : cell) : M loc :=
  fun w => (Ok (length (heap w)),
            {| heap := heap w ++ [c]; warnings := warnings w |}).

Definition store (l : loc) (c : cell) : M unit :=
  fun w => (Ok tt, {| heap := <[l := c]> (heap w); warnings := warnings w |}).

Definition warn (cat msg : string) : M unit :=
  fun w => (Ok tt,
            {| heap := heap w;
               warnings := warnings w ++ [{| category := cat; message := msg |}] |}).

Definition read_factory (l : loc) : M FactoryState :=
  fun w => match heap w !! l with
           | Some (CFactory f) => (Ok f, w)
           | _ => (Err (AttributeError "_ssl_method"), w)
           end.

Definition read_context (l : loc) (attr : string) : M Context :=
  fun w => match heap w !! l with
           | Some (CContext c) => (Ok c, w)
           | _ => (Err (AttributeError attr), w)
           end.

Definition read_options (l : loc) : M ClientTLSOptions :=
  fun w => match heap w !! l with
           | Some (CTLSOptions o) => (Ok o, w)
           | _ => (Err (AttributeError "_ctx"), w)
           end.

(** ** The [OpenSSL.SSL] namespace *)

(** [getattr(SSL, name)]: raises when the attribute is missing. *)
Definition getattr (SSL : gmap string Z) (name : string) : result Z :=
  match SSL !! name with
  | Some v => Ok v
  | None => Err (AttributeError name)
  end.

(** [getattr(SSL, name, dflt)]. *)
Definition getattr_default (SSL : gmap string Z) (name : string) (dflt : Z) : Z :=
  match SSL !! name with
  | Some v => v
  | None => dflt
  end.

(** ** [bytes.decode("ascii")] *)

Fixpoint decode_ascii_from (pos : nat) (bs : bytes) : result string :=
  match bs with
  | [] => Ok EmptyString
  | b :: bs' =>
      if (Byte.to_N b <? 128)%N then
        match decode_ascii_from (S pos) bs' with
        | Ok s => Ok (String (ascii_of_byte b) s)
        | Err e => Err e
        end
      else Err (UnicodeDecodeError "ascii" pos)
  end.

Definition decode_ascii (bs : bytes) : result string := decode_ascii_from 0 bs.

Definition is_ascii (bs : bytes) : bool :=
  forallb (fun b => (Byte.to_N b <? 128)%N) bs.

(** ** Operations of the libraries on contexts *)

(** Modelled from the spec: [CertificateOptions.getContext()] belongs to
    Twisted; the options are "consumed per-connection to derive a handshake
    context".  A fresh context is allocated on every call, since the
    options object it is called on is itself fresh. *)
Definition CertificateOptions_getContext (opts : CertificateOptions) : M loc :=
  alloc (CContext {| ctx_source := opts;
                     ctx_applied_options := [];
                     ctx_protocols := None |}).

(** [ctx.set_options(flags)]. *)
Definition set_options (ctx : loc) (flags : Z) : M unit :=
  c <- read_context ctx "set_options" ;;
  store ctx (CContext {| ctx_source := ctx_source c;
                         ctx_applied_options := ctx_applied_options c ++ [flags];
                         ctx_protocols := ctx_protocols c |}).

(** Modelled from the spec: [_setAcceptableProtocols] belongs to Twisted;
    it sets the context's "protocol-negotiation extension to exactly" the
    given list. *)
Definition _setAcceptableProtocols (ctx : loc) (protocols : list bytes) : M unit :=
  c <- read_context ctx "set_alpn_protos" ;;
  store ctx (CContext {| ctx_source := ctx_source c;
                         ctx_applied_options := ctx_applied_options c;
                         ctx_protocols := Some protocols |}).

(** Modelled from the spec: the constructor of [ScrapyClientTLSOptions]
    (scrapy/core/downloader/tls.py, not among the sources) allocates the
    per-connection config from its three arguments. *)
Definition ScrapyClientTLSOptions (hostname : string) (ctx : loc) (verbose : bool) : M loc :=
  alloc (CTLSOptions {| _hostname := hostname; _ctx := ctx; verbose_logging := verbose |}).

(** Python's [try: c  except E: h]: the handler sees the world as the
    failed attempt left it. *)
Definition try_except {A} (c : M A) (h : exn -> M A) : M A :=
  fun w => match c w with
           | (Ok a, w') => (Ok a, w')
           | (Err e, w') => h e w'
           end.

(** ** Settings and crawler *)

(** The values the settings accessors of the resolver and of
    [from_crawler] return: [settings.get] and [settings[...]] give [None]
    for a missing key, [settings.getbool] a boolean. *)
Record Settings := {
  DOWNLOADER_CLIENT_TLS_METHOD : option string;
  DOWNLOADER_CLIENT_TLS_VERBOSE_LOGGING : bool;
  DOWNLOADER_CLIENT_TLS_CIPHERS : option string;
  DOWNLOADER_CLIENTCONTEXTFACTORY : option string
}.

Record Crawler := { settings : Settings }.

(** [str(x)] of an optional string, as an f-string renders it. *)
Definition py_str (o : option string) : string :=
  match o with Some s => s | None => "None" end.

(** ** ScrapyClientContextFactory *)

Module ScrapyClientContextFactory.
Section WithLibraries.
Variable SSL : gmap string Z.
Variable fromOpenSSLCipherString : string -> result AcceptableCiphers.
Variable DEFAULT_CIPHERS : AcceptableCiphers.

Definition deprecation_message : string :=
  "Overriding ScrapyClientContextFactory.getContext() is deprecated and that method"
  +:+ " will be removed in a future Scrapy version. Override creatorForNetloc() instead.".

(** [__init__(self, method=None, tls_verbose_logging=False,
    tls_ciphers=None)].  [getContext_overridden] is what
    [method_is_overridden(type(self), ScrapyClientContextFactory,
    "getContext")] answers for the class being instantiated.  The inner
    [getattr(SSL, "SSLv23_METHOD")] is an argument of the outer call, so
    it is evaluated (and may raise) before the outer lookup.  The extra
    [*args] and [**kwargs] go to Twisted's [BrowserLikePolicyForHTTPS],
    which only stores a trust root that this class never reads; they are
    left out.  The instance becomes reachable only when [__init__]
    returns, so it is allocated last. *)
Definition __init__ (getContext_overridden : bool)
    (method : option Z) (tls_verbose_logging : bool)
    (tls_ciphers : option string) : M loc :=
  ssl_method <-
    match method with
    | None =>
        fallback <- lift (getattr SSL "SSLv23_METHOD") ;;
        ret (getattr_default SSL "TLS_METHOD" fallback)
    | Some m => ret m
    end ;;
  ciphers <-
    match tls_ciphers with
    | Some (String a s) => lift (fromOpenSSLCipherString (String a s))
    | _ => ret DEFAULT_CIPHERS
    end ;;
  (if getContext_overridden
   then warn "ScrapyDeprecationWarning" deprecation_message
   else ret tt) ;;;
  alloc (CFactory {| _ssl_method := ssl_method;
                     tls_verbose_logging := tls_verbose_logging;
                     tls_ciphers := ciphers |}).

(** The default of [from_crawler]'s [method] parameter,
    [SSL.SSLv23_METHOD], evaluated once when the class body runs. *)
Definition from_crawler_default : result Z := getattr SSL "SSLv23_METHOD".

(** The body of [from_crawler(cls, crawler, method=..., *args, **kwargs)]
    for [cls = ScrapyClientContextFactory], in a function object whose
    default for [method] has the value [method_default].  A [method] that
    is passed is handed to the constructor as it is, [None] included (the
    annotation [int] is not enforced); an omitted one is replaced by the
    default.  The constructor always gets [method=...] as a keyword. *)
Definition from_crawler_function (method_default : Z) (crawler : Crawler)
    (method : argument (option Z)) : M loc :=
  let method := match method with
                | Passed m => m
                | Omitted => Some method_default
                end in
  let tls_verbose_logging :=
    DOWNLOADER_CLIENT_TLS_VERBOSE_LOGGING (settings crawler) in
  let tls_ciphers := DOWNLOADER_CLIENT_TLS_CIPHERS (settings crawler) in
  __init__ false method tls_verbose_logging tls_ciphers.

(** [from_crawler] as the [def] statement in the class body creates it:
    the default [SSL.SSLv23_METHOD] is evaluated at that moment, once, and
    where the library has no such symbol the statement raises and there
    is no function to call. *)
Definition from_crawler : result (Crawler -> argument (option Z) -> M loc) :=
  match from_crawler_default with
  | Ok method_default => Ok (from_crawler_function method_default)
  | Err e => Err e
  end.

Definition getCertificateOptions (self : loc) : M CertificateOptions :=
  f <- read_factory self ;;
  ret {| verify := false;
         method := _ssl_method f;
         fixBrokenPeers := true;
         acceptableCiphers := tls_ciphers f |}.

Definition op_no_tlsv1 : Z := getattr_default SSL "OP_NO_TLSv1" 0.
Definition op_no_tlsv1_1 : Z := getattr_default SSL "OP_NO_TLSv1_1" 0.
Definition op_no_sslv2 : Z := getattr_default SSL "OP_NO_SSLv2" 0.
Definition op_no_sslv3 : Z := getattr_default SSL "OP_NO_SSLv3" 0.
Definition op_legacy : Z := getattr_default SSL "OP_LEGACY_SERVER_CONNECT" 4.
Definition disable_flags : Z :=
  Z.lor (Z.lor (Z.lor op_no_tlsv1 op_no_tlsv1_1) op_no_sslv2) op_no_sslv3.

(** [getContext(self, hostname=None, port=None)]. *)
Definition getContext (self : loc) (hostname : option bytes)
    (port : option Z) : M loc :=
  opts <- getCertificateOptions self ;;
  ctx <- CertificateOptions_getContext opts ;;
  set_options ctx (Z.lor op_legacy disable_flags) ;;;
  ret ctx.

(** [creatorForNetloc(self, hostname, port)]: arguments are evaluated
    left to right, so the hostname is decoded before any context is
    built. *)
Definition creatorForNetloc (self : loc) (hostname : bytes) (port : Z) : M loc :=
  host <- lift (decode_ascii hostname) ;;
  ctx <- getContext self None None ;;
  f <- read_factory self ;;
  ScrapyClientTLSOptions host ctx (tls_verbose_logging f).

End WithLibraries.
End ScrapyClientContextFactory.


(** ** AcceptableProtocolsContextFactory *)

(** A bound method as [zope.interface] inspects it and as a caller invokes
    it: how many positional parameters it requires, how many it takes at
    most, whether it takes [*args], and what calling it with a hostname
    and a port does. *)
Record BoundMethod := {
  sig_required : nat;
  sig_positional : nat;
  sig_varargs : bool;
  call : bytes -> Z -> M loc
}.

(** Any Python object handed over as a context factory: whether it
    declares [IPolicyForHTTPS], and its [creatorForNetloc] attribute when
    it has one. *)
Record PolicyObject := {
  provides_IPolicyForHTTPS : bool;
  creatorForNetloc_attr : option BoundMethod
}.

Definition accepts_two_positional (m : BoundMethod) : bool :=
  (sig_required m <=? 2)%nat && ((2 <=? sig_positional m)%nat || sig_varargs m).

(** Modelled from the spec: [verifyObject] belongs to zope.interface; it
    checks that the object "satisfies the Context Factory capability
    (hostname/port -> per-connection config)" and raises a subclass of
    [zope.interface.Invalid] otherwise: the object must declare the
    interface, have the interface's one method, and take its two
    arguments. *)
Definition verifyObject_IPolicyForHTTPS (candidate : PolicyObject) : result unit :=
  if negb (provides_IPolicyForHTTPS candidate) then
    Err (Invalid "The object does not implement the interface IPolicyForHTTPS.")
  else
    match creatorForNetloc_attr candidate with
    | None => Err (Invalid "The creatorForNetloc attribute was not provided.")
    | Some m =>
        if (2 <? sig_required m)%nat then
          Err (Invalid "implementation requires too many arguments")
        else if (sig_positional m <? 2)%nat && negb (sig_varargs m) then
          Err (Invalid "implementation doesn't allow enough arguments")
        else Ok tt
    end.

(** [obj.creatorForNetloc(hostname, port)] on an arbitrary object. *)
Definition call_creatorForNetloc (obj : PolicyObject) (hostname : bytes)
    (port : Z) : M loc :=
  match creatorForNetloc_attr obj with
  | None => raise (AttributeError "creatorForNetloc")
  | Some m =>
      if accepts_two_positional m then call m hostname port
      else raise (TypeError (OtherTypeError "creatorForNetloc() takes a different number of positional arguments"))
  end.

Module AcceptableProtocolsContextFactory.

Record t := {
  _wrapped_context_factory : PolicyObject;
  _acceptable_protocols : list bytes
}.

Definition __init__ (context_factory : PolicyObject)
    (acceptable_protocols : list bytes) : result t :=
  match verifyObject_IPolicyForHTTPS context_factory with
  | Err e => Err e
  | Ok _ =>
      Ok {| _wrapped_context_factory := context_factory;
            _acceptable_protocols := acceptable_protocols |}
  end.

Definition creatorForNetloc (self : t) (hostname : bytes) (port : Z) : M loc :=
  options <- call_creatorForNetloc (_wrapped_context_factory self) hostname port ;;
  o <- read_options options ;;
  _setAcceptableProtocols (_ctx o) (_acceptable_protocols self) ;;;
  ret options.

(** The wrapper seen as a context factory itself (the class is declared
    [@implementer(IPolicyForHTTPS)]). *)
Definition as_policy (self : t) : PolicyObject :=
  {| provides_IPolicyForHTTPS := true;
     creatorForNetloc_attr :=
       Some {| sig_required := 2; sig_positional := 2; sig_varargs := false;
               call := creatorForNetloc self |} |}.

End AcceptableProtocolsContextFactory.

(** An instance of [ScrapyClientContextFactory] seen as a context factory. *)
Definition base_as_policy (SSL : gmap string Z) (self : loc) : PolicyObject :=
  {| provides_IPolicyForHTTPS := true;
     creatorForNetloc_attr :=
       Some {| sig_required := 2; sig_positional := 2; sig_varargs := false;
               call := ScrapyClientContextFactory.creatorForNetloc SSL self |} |}.

(** ** The resolver *)

(** A context factory class as the resolver uses it: what creating an
    instance from the crawler does, with [method=m] passed or without it. *)
Record FactoryClass := {
  create : Crawler -> option Z -> M loc
}.

(** Modelled from the spec: [build_from_crawler] of scrapy/utils/misc.py is
    not among the sources; it "attempt[s] construction passing [method]
    (plus any crawler-derived dependencies)". *)
Definition build_from_crawler (objcls : FactoryClass) (crawler : Crawler)
    (method : option Z) : M loc :=
  create objcls crawler method.

Definition compatibility_message (path : option string) : string :=
  py_str path +:+ " does not accept "
  +:+ "a `method` argument (type OpenSSL.SSL method, e.g. "
  +:+ "OpenSSL.SSL.SSLv23_METHOD) and/or a `tls_verbose_logging` "
  +:+ "argument and/or a `tls_ciphers` argument. Please, upgrade your "
  +:+ "context factory class to handle them or ignore them.".

(** [openssl_methods[name]]. *)
Definition openssl_methods_getitem (openssl_methods : gmap string Z)
    (name : option string) : result Z :=
  match name with
  | Some n =>
      match openssl_methods !! n with
      | Some m => Ok m
      | None => Err (KeyError name)
      end
  | None => Err (KeyError None)
  end.

Section Resolver.
Variable openssl_methods : gmap string Z.
Variable load_object : option string -> result FactoryClass.

(** The [try] block and its [except TypeError] handler. *)
Definition construct_with_fallback (context_factory_cls : FactoryClass)
    (settings : Settings) (crawler : Crawler) (ssl_method : Z) : M loc :=
  try_except
    (build_from_crawler context_factory_cls crawler (Some ssl_method))
    (fun e =>
       if is_TypeError e then
         context_factory <- build_from_crawler context_factory_cls crawler None ;;
         warn "UserWarning"
              (compatibility_message (DOWNLOADER_CLIENTCONTEXTFACTORY settings)) ;;;
         ret context_factory
       else raise e).

Definition load_context_factory_from_settings (settings : Settings)
    (crawler : Crawler) : M loc :=
  ssl_method <- lift (openssl_methods_getitem openssl_methods
                        (DOWNLOADER_CLIENT_TLS_METHOD settings)) ;;
  context_factory_cls <- lift (load_object (DOWNLOADER_CLIENTCONTEXTFACTORY settings)) ;;
  construct_with_fallback context_factory_cls settings crawler ssl_method.

End Resolver.


(** [ScrapyClientContextFactory] as the resolver sees it:
    [build_from_crawler] finds [from_crawler] and calls it, with
    [method=m] or without.  [method_default] is the value the default of
    [from_crawler] has in this class. *)
Definition ScrapyClientContextFactory_class (SSL : gmap string Z)
    (fromOpenSSLCipherString : string -> result AcceptableCiphers)
    (DEFAULT_CIPHERS : AcceptableCiphers) (method_default : Z) : FactoryClass :=
  {| create := fun crawler method =>
       ScrapyClientContextFactory.from_crawler_function
         SSL fromOpenSSLCipherString DEFAULT_CIPHERS method_default crawler
         (match method with
          | Some m => Passed (Some m)
          | None => Omitted
          end) |}.

(** ** Properties used in the statements *)

(** The context-factory capability: the object declares the interface and
    its [creatorForNetloc] can be called with a hostname and a port. *)
Definition satisfies_IPolicyForHTTPS (obj : PolicyObject) : Prop :=
  provides_IPolicyForHTTPS obj = true /\
  exists m, creatorForNetloc_attr obj = Some m /\
            (sig_required m <= 2)%nat /\
            ((2 <= sig_positional m)%nat \/ sig_varargs m = true).

(** Location [l] holds the same cell in both worlds. *)
Definition same_cell (w w' : world) (l : loc) : Prop :=
  heap w' !! l = heap w !! l.

(** Every cell of [w] is still there, unchanged, in [w']. *)
Definition preserves_heap (w w' : world) : Prop :=
  forall l, (l < length (heap w))%nat -> same_cell w w' l.

(** Text [needle] occurs in [s]. *)
Definition occurs_in (needle s : string) : Prop :=
  exists pre post, s = pre +:+ needle +:+ post.

(** The reading of "so the cipher policy is never empty", for a parser
    and a default bundle: whatever instance [__init__] makes, the policy
    [getCertificateOptions] hands over names at least one cipher. *)
Definition cipher_policy_never_empty
    (fromOpenSSLCipherString : string -> result AcceptableCiphers)
    (DEFAULT_CIPHERS : AcceptableCiphers) : Prop :=
  forall (SSL : gmap string Z) (overridden : bool) (method : option Z)
         (verbose : bool) (tls_ciphers : option string)
         (w w1 : world) (self : loc) (opts : CertificateOptions),
    ScrapyClientContextFactory.__init__ SSL fromOpenSSLCipherString
      DEFAULT_CIPHERS overridden method verbose tls_ciphers w = (Ok self, w1) ->
    ScrapyClientContextFactory.getCertificateOptions self w1 = (Ok opts, w1) ->
    cipher_names (acceptableCiphers opts) <> [].

(** The reading of "the capability probe is never consulted on this
    construction path": on two libraries with the same [SSLv23_METHOD],
    whether or not they have [TLS_METHOD], [from_crawler] builds the
    same. *)
Definition from_crawler_never_probes : Prop :=
  forall (SSL SSL' : gmap string Z)
         (fromOpenSSLCipherString : string -> result AcceptableCiphers)
         (DEFAULT_CIPHERS : AcceptableCiphers)
         (f f' : Crawler -> argument (option Z) -> M loc)
         (crawler : Crawler) (method : argument (option Z)) (w : world),
    SSL !! "SSLv23_METHOD" = SSL' !! "SSLv23_METHOD" ->
    ScrapyClientContextFactory.from_crawler SSL fromOpenSSLCipherString
      DEFAULT_CIPHERS = Ok f ->
    ScrapyClientContextFactory.from_crawler SSL' fromOpenSSLCipherString
      DEFAULT_CIPHERS = Ok f' ->
    f crawler method w = f' crawler method w.

(** The index of the first byte that is not ASCII. *)
Fixpoint first_non_ascii (bs : bytes) : option nat :=
  match bs with
  | [] => None
  | b :: bs' =>
      if (Byte.to_N b <? 128)%N then S <$> first_non_ascii bs' else Some 0%nat
  end.

(** The resolver reading of "every construction failure other than the
    signature mismatch propagates unmodified". *)
Definition propagates_all_but_signature_mismatch : Prop :=
  forall (openssl_methods : gmap string Z)
         (load_object : option string -> result FactoryClass)
         (settings : Settings) (crawler : Crawler) (cls : FactoryClass)
         (m : Z) (w w1 : world) (e : exn),
    openssl_methods_getitem openssl_methods
      (DOWNLOADER_CLIENT_TLS_METHOD settings) = Ok m ->
    load_object (DOWNLOADER_CLIENTCONTEXTFACTORY settings) = Ok cls ->
    build_from_crawler cls crawler (Some m) w = (Err e, w1) ->
    is_signature_mismatch e = false ->
    load_context_factory_from_settings openssl_methods load_object
      settings crawler w = (Err e, w1).

(** ** Concrete libraries, settings and classes *)

(** A current pyOpenSSL: every symbol is there. *)
Definition SSL_modern : gmap string Z :=
  list_to_map [("TLS_METHOD", 7); ("SSLv23_METHOD", 3);
               ("OP_NO_SSLv2", 0x01000000); ("OP_NO_SSLv3", 0x02000000);
               ("OP_NO_TLSv1", 0x04000000); ("OP_NO_TLSv1_1", 0x10000000);
               ("OP_LEGACY_SERVER_CONNECT", 0x4)].

(** An old build: no [TLS_METHOD], one disable flag only. *)
Definition SSL_old : gmap string Z :=
  list_to_map [("SSLv23_METHOD", 3); ("OP_NO_SSLv3", 0x02000000)].

(** A build that has dropped [SSLv23_METHOD]. *)
Definition SSL_without_SSLv23 : gmap string Z :=
  list_to_map [("TLS_METHOD", 7)].

(** A stand-in for Twisted's parser: a string is one cipher name, except
    that ["!ALL"], which excludes every cipher, is accepted and selects
    none, and a string that is not ASCII is rejected. *)
Definition parse_one_name (s : string) : result AcceptableCiphers :=
  if String.eqb s "!ALL" then Ok {| cipher_names := [] |}
  else if forallb (fun a => (nat_of_ascii a <? 128)%nat) (list_ascii_of_string s)
  then Ok {| cipher_names := [s] |}
  else Err (Raised "UnicodeEncodeError" "'ascii' codec can't encode character").

(** A cipher string with the character 0xe9. *)
Definition latin1_ciphers : string := String (ascii_of_nat 233) "CDHE".

Definition default_bundle : AcceptableCiphers :=
  {| cipher_names := ["DEFAULT"] |}.

Definition base_settings : Settings :=
  {| DOWNLOADER_CLIENT_TLS_METHOD := Some "TLS";
     DOWNLOADER_CLIENT_TLS_VERBOSE_LOGGING := false;
     DOWNLOADER_CLIENT_TLS_CIPHERS := Some "";
     DOWNLOADER_CLIENTCONTEXTFACTORY :=
       Some "scrapy.core.downloader.contextfactory.ScrapyClientContextFactory" |}.

Definition base_crawler : Crawler := {| settings := base_settings |}.

Definition method_table : gmap string Z :=
  list_to_map [("TLS", 3); ("TLSv1.0", 4); ("TLSv1.1", 5); ("TLSv1.2", 6)].

Definition a_factory : FactoryState :=
  {| _ssl_method := 3; tls_verbose_logging := true; tls_ciphers := default_bundle |}.

(** A class written before [method] existed: its constructor takes no
    arguments. *)
Definition LegacyFactory : FactoryClass :=
  {| create := fun _ method =>
       match method with
       | Some _ => raise (TypeError (UnexpectedKeyword "method"))
       | None => alloc (CFactory a_factory)
       end |}.

(** A class that accepts [method] but whose constructor body hits a
    [TypeError] of its own when it is given one. *)
Definition FaultyFactory : FactoryClass :=
  {| create := fun _ method =>
       match method with
       | Some _ => raise (TypeError (OtherTypeError
                     "unsupported operand type(s) for +: 'int' and 'str'"))
       | None => alloc (CFactory a_factory)
       end |}.

(** A class whose constructor fails with something else. *)
Definition FailingFactory : FactoryClass :=
  {| create := fun _ _ => raise (Raised "ValueError" "bad configuration") |}.

Definition load_by_path (path : option string) : result FactoryClass :=
  match path with
  | Some "legacy.Factory" => Ok LegacyFactory
  | Some "faulty.Factory" => Ok FaultyFactory
  | Some "failing.Factory" => Ok FailingFactory
  | Some "scrapy.core.downloader.contextfactory.ScrapyClientContextFactory" =>
      match ScrapyClientContextFactory.from_crawler_default SSL_modern with
      | Ok method_default =>
          Ok (ScrapyClientContextFactory_class SSL_modern parse_one_name
                default_bundle method_default)
      | Err e => Err e
      end
  | Some p => Err (Raised "NameError" p)
  | None => Err (TypeError (OtherTypeError "Unexpected argument type, expected string or object, got: NoneType"))
  end.

Definition with_factory (path : string) : Settings :=
  {| DOWNLOADER_CLIENT_TLS_METHOD := Some "TLS";
     DOWNLOADER_CLIENT_TLS_VERBOSE_LOGGING := false;
     DOWNLOADER_CLIENT_TLS_CIPHERS := None;
     DOWNLOADER_CLIENTCONTEXTFACTORY := Some path |}.

(** A world in which one factory instance lives at location 0. *)
Definition one_factory_world : world :=
  {| heap := [CFactory a_factory]; warnings := [] |}.

Definition example_com : bytes :=
  [x65; x78; x61; x6d; x70; x6c; x65; x2e; x63; x6f; x6d]%byte.

Definition h2 : bytes := [x68; x32]%byte.
Definition http11 : bytes := [x68; x74; x74; x70; x2f; x31; x2e; x31]%byte.


(** ** BrowserLikeContextFactory *)

Module BrowserLikeContextFactory.
Section WithTwisted.
(** [platformTrust()] and [optionsForClientTLS(hostname, trustRoot,
    extraCertificateOptions=...)] belong to Twisted; they are taken as
    they come. *)
Variable TrustRoot : Type.
Variable platformTrust : M TrustRoot.
Variable optionsForClientTLS : string -> TrustRoot -> gmap string Z -> M loc.

(** [creatorForNetloc(self, hostname, port)] of the subclass; [self] is an
    instance with the state of the base class.  The keyword arguments are
    evaluated in the order they are written. *)
Definition creatorForNetloc (self : loc) (hostname : bytes) (port : Z) : M loc :=
  host <- lift (decode_ascii hostname) ;;
  trustRoot <- platformTrust ;;
  f <- read_factory self ;;
  optionsForClientTLS host trustRoot {[ "method" := _ssl_method f ]}.

End WithTwisted.
End BrowserLikeContextFactory.

(** A stand-in for Twisted on which the subclass can be run: the platform
    trust root is a token, and the options carry a verifying context made
    from the extra certificate options. *)
Definition token_platformTrust : M unit := ret tt.

Definition verifying_optionsForClientTLS (hostname : string) (trustRoot : unit)
    (extraCertificateOptions : gmap string Z) : M loc :=
  ctx <- alloc (CContext
           {| ctx_source :=
                {| verify := true;
                   method := default 0 (extraCertificateOptions !! "method");
                   fixBrokenPeers := false;
                   acceptableCiphers := default_bundle |};
              ctx_applied_options := [];
              ctx_protocols := None |}) ;;
  alloc (CTLSOptions {| _hostname := hostname; _ctx := ctx;
                        verbose_logging := false |}).

(** The context a factory with state [f] gets from [getContext] on the
    library [SSL]. *)
Definition context_of (SSL : gmap string Z) (f : FactoryState) : Context :=
  {| ctx_source := {| verify := false; method := _ssl_method f;
                      fixBrokenPeers := true;
                      acceptableCiphers := tls_ciphers f |};
     ctx_applied_options :=
       [Z.lor (ScrapyClientContextFactory.op_legacy SSL)
              (ScrapyClientContextFactory.disable_flags SSL)];
     ctx_protocols := None |}.

Definition with_protocols (c : Context) (protocols : list bytes) : Context :=
  {| ctx_source := ctx_source c;
     ctx_applied_options := ctx_applied_options c;
     ctx_protocols := Some protocols |}.

(** A hostname with the byte 0xe9 at index 1. *)
Definition latin1_host : bytes := [x63; xe9; x2e; x66; x72]%byte.

(** A second factory with the method of [a_factory] and other settings,
    and a world in which both live. *)
Definition another_factory : FactoryState :=
  {| _ssl_method := 3; tls_verbose_logging := false;
     tls_ciphers := {| cipher_names := ["ECDHE+AESGCM"] |} |}.

Definition two_factory_world : world :=
  {| heap := [CFactory a_factory; CFactory another_factory]; warnings := [] |}.


(** * Proofs *)

(** ** The heap *)

Lemma lookup_fresh (h : list cell) (c : cell) :
  (h ++ [c]) !! length h = Some c.
Proof. by rewrite list_lookup_middle. Qed.

Lemma insert_fresh (h : list cell) (c c' : cell) :
  <[length h := c']> (h ++ [c]) = h ++ [c'].
Proof.
  replace (length h) with (length h + 0)%nat by lia.
  by rewrite insert_app_r.
Qed.

Lemma lookup_fresh_two (h : list cell) (c1 c2 : cell) :
  (h ++ [c1; c2]) !! length h = Some c1 /\
  (h ++ [c1; c2]) !! S (length h) = Some c2.
Proof.
  split.
  - by rewrite list_lookup_middle.
  - rewrite lookup_app_r by lia.
    by replace (S (length h) - length h)%nat with 1%nat by lia.
Qed.

Lemma insert_fresh_two (h : list cell) (c1 c2 c' : cell) :
  <[length h := c']> (h ++ [c1; c2]) = h ++ [c'; c2].
Proof.
  replace (length h) with (length h + 0)%nat at 1 by lia.
  by rewrite insert_app_r.
Qed.

Lemma lookup_old (h : list cell) (c : cell) (l : loc) (x : cell) :
  h !! l = Some x -> (h ++ [c]) !! l = Some x.
Proof. apply lookup_app_l_Some. Qed.

Lemma preserves_heap_refl (w : world) : preserves_heap w w.
Proof. by intros l _. Qed.

Lemma preserves_heap_app (w : world) (cs : list cell) (ws : list warning) :
  preserves_heap w {| heap := heap w ++ cs; warnings := ws |}.
Proof. intros l Hl. unfold same_cell. simpl. by rewrite lookup_app_l. Qed.

(** ** Decoding *)

Lemma length_decoded (bs : bytes) :
  String.length (string_of_list_ascii (map ascii_of_byte bs)) = length bs.
Proof. induction bs as [|b bs IH]; simpl; [done|by rewrite IH]. Qed.

Lemma decode_ascii_from_ok (bs : bytes) (pos : nat) :
  is_ascii bs = true ->
  decode_ascii_from pos bs = Ok (string_of_list_ascii (map ascii_of_byte bs)).
Proof.
  revert pos. induction bs as [|b bs IH]; intros pos H; simpl in *.
  - reflexivity.
  - apply andb_true_iff in H as [Hb Hbs]. rewrite Hb.
    by rewrite (IH (S pos) Hbs).
Qed.

Lemma decode_ascii_from_err (bs : bytes) (pos : nat) :
  is_ascii bs = false ->
  exists i, first_non_ascii bs = Some i /\
            decode_ascii_from pos bs = Err (UnicodeDecodeError "ascii" (pos + i)).
Proof.
  revert pos. induction bs as [|b bs IH]; intros pos H; simpl in *.
  - discriminate.
  - destruct (Byte.to_N b <? 128)%N eqn:Hb; simpl in H.
    + destruct (IH (S pos) H) as (i & Hi & Hd).
      exists (S i). rewrite Hi, Hd. split; [done|].
      do 2 f_equal. lia.
    + exists 0%nat. split; [done|]. do 2 f_equal. lia.
Qed.

Lemma first_non_ascii_spec (bs : bytes) (i : nat) :
  first_non_ascii bs = Some i ->
  is_ascii (take i bs) = true /\
  exists b, bs !! i = Some b /\ (128 <= Byte.to_N b)%N.
Proof.
  revert i. induction bs as [|b bs IH]; intros i H; simpl in *.
  - discriminate.
  - destruct (Byte.to_N b <? 128)%N eqn:Hb.
    + destruct (first_non_ascii bs) as [j|]; simpl in H; [|discriminate].
      injection H as <-. destruct (IH j eq_refl) as (Ht & b' & Hl & Hge).
      simpl. rewrite Hb, Ht. split; [done|]. by exists b'.
    + injection H as <-. split; [done|]. exists b. split; [done|].
      apply N.ltb_ge in Hb. lia.
Qed.

(** ** Symbolic execution of the base factory *)

Section BaseFactory.
Variable SSL : gmap string Z.

Lemma getCertificateOptions_spec (self : loc) (f : FactoryState) (w : world) :
  heap w !! self = Some (CFactory f) ->
  ScrapyClientContextFactory.getCertificateOptions self w =
    (Ok {| verify := false; method := _ssl_method f;
           fixBrokenPeers := true; acceptableCiphers := tls_ciphers f |}, w).
Proof.
  intros H. unfold ScrapyClientContextFactory.getCertificateOptions,
    bind, read_factory, ret. by rewrite H.
Qed.

Lemma getContext_spec (self : loc) (f : FactoryState) (w : world)
    (hostname : option bytes) (port : option Z) :
  heap w !! self = Some (CFactory f) ->
  ScrapyClientContextFactory.getContext SSL self hostname port w =
    (Ok (length (heap w)),
     {| heap := heap w ++
          [CContext
             {| ctx_source := {| verify := false; method := _ssl_method f;
                                 fixBrokenPeers := true;
                                 acceptableCiphers := tls_ciphers f |};
                ctx_applied_options :=
                  [Z.lor (ScrapyClientContextFactory.op_legacy SSL)
                         (ScrapyClientContextFactory.disable_flags SSL)];
                ctx_protocols := None |}];
        warnings := warnings w |}).
Proof.
  intros H. unfold ScrapyClientContextFactory.getContext, bind.
  rewrite (getCertificateOptions_spec self f w H).
  unfold CertificateOptions_getContext, alloc, set_options, bind,
    read_context, store, ret. simpl.
  rewrite lookup_fresh. simpl. by rewrite insert_fresh.
Qed.

Lemma creatorForNetloc_spec (self : loc) (f : FactoryState) (w : world)
    (hostname : bytes) (port : Z) :
  heap w !! self = Some (CFactory f) ->
  is_ascii hostname = true ->
  ScrapyClientContextFactory.creatorForNetloc SSL self hostname port w =
    (Ok (S (length (heap w))),
     {| heap := heap w ++
          [CContext
             {| ctx_source := {| verify := false; method := _ssl_method f;
                                 fixBrokenPeers := true;
                                 acceptableCiphers := tls_ciphers f |};
                ctx_applied_options :=
                  [Z.lor (ScrapyClientContextFactory.op_legacy SSL)
                         (ScrapyClientContextFactory.disable_flags SSL)];
                ctx_protocols := None |};
           CTLSOptions
             {| _hostname := string_of_list_ascii (map ascii_of_byte hostname);
                _ctx := length (heap w);
                verbose_logging := tls_verbose_logging f |}];
        warnings := warnings w |}).
Proof.
  intros H Hascii. unfold ScrapyClientContextFactory.creatorForNetloc, bind, lift.
  unfold decode_ascii. rewrite (decode_ascii_from_ok hostname 0 Hascii).
  rewrite (getContext_spec self f w None None H).
  unfold read_factory, ScrapyClientTLSOptions, alloc. simpl.
  rewrite (lookup_old _ _ _ _ H). simpl.
  rewrite length_app. simpl. rewrite <- app_assoc. simpl.
  do 2 f_equal. lia.
Qed.

Lemma creatorForNetloc_not_ascii (self : loc) (w : world)
    (hostname : bytes) (port : Z) :
  is_ascii hostname = false ->
  exists i, first_non_ascii hostname = Some i /\
    ScrapyClientContextFactory.creatorForNetloc SSL self hostname port w =
      (Err (UnicodeDecodeError "ascii" i), w).
Proof.
  intros H. destruct (decode_ascii_from_err hostname 0 H) as (i & Hi & Hd).
  exists i. split; [done|].
  unfold ScrapyClientContextFactory.creatorForNetloc, bind, lift, decode_ascii.
  by rewrite Hd.
Qed.

End BaseFactory.

(** ** Legacy context and per-connection config of the base factory *)

Lemma lor_flags_testbit (legacy a b c d : Z) (n : Z) :
  Z.testbit (Z.lor legacy (Z.lor (Z.lor (Z.lor a b) c) d)) n =
    Z.testbit legacy n || Z.testbit a n || Z.testbit b n
    || Z.testbit c n || Z.testbit d n.
Proof. rewrite !Z.lor_spec. by destruct (Z.testbit legacy n), (Z.testbit a n),
  (Z.testbit b n), (Z.testbit c n), (Z.testbit d n). Qed.

(** C5: for every factory instance and every optional hostname and port,
    [getContext] builds a new handshake context from the instance's
    certificate options - [verify] false, the instance's method,
    [fixBrokenPeers] true, the instance's ciphers, which is what
    [getCertificateOptions] gives for the instance - and applies to it one
    set of options: bit for bit the OR of the legacy-server-connect bit
    with the disable bits for TLSv1, TLSv1.1, SSLv2 and SSLv3, where an
    unavailable disable bit counts as 0 (and an unavailable legacy bit as
    4).  It returns that context, which no older object is, and leaves
    every older object as it was. *)
Theorem getContext_applies_or_of_flags (SSL : gmap string Z) (self : loc)
    (f : FactoryState) (w : world) (hostname : option bytes) (port : option Z) :
  heap w !! self = Some (CFactory f) ->
  let opts := {| verify := false; method := _ssl_method f;
                 fixBrokenPeers := true; acceptableCiphers := tls_ciphers f |} in
  exists ctx c flags w',
    ScrapyClientContextFactory.getCertificateOptions self w = (Ok opts, w) /\
    ScrapyClientContextFactory.getContext SSL self hostname port w =
      (Ok ctx, w') /\
    heap w !! ctx = None /\
    heap w' !! ctx = Some (CContext c) /\
    ctx_source c = opts /\
    ctx_applied_options c = [flags] /\
    ctx_protocols c = None /\
    flags =
      Z.lor (getattr_default SSL "OP_LEGACY_SERVER_CONNECT" 4)
        (Z.lor (Z.lor (Z.lor (getattr_default SSL "OP_NO_TLSv1" 0)
                             (getattr_default SSL "OP_NO_TLSv1_1" 0))
                      (getattr_default SSL "OP_NO_SSLv2" 0))
               (getattr_default SSL "OP_NO_SSLv3" 0)) /\
    (forall n,
       Z.testbit flags n =
         Z.testbit (getattr_default SSL "OP_LEGACY_SERVER_CONNECT" 4) n
         || Z.testbit (getattr_default SSL "OP_NO_TLSv1" 0) n
         || Z.testbit (getattr_default SSL "OP_NO_TLSv1_1" 0) n
         || Z.testbit (getattr_default SSL "OP_NO_SSLv2" 0) n
         || Z.testbit (getattr_default SSL "OP_NO_SSLv3" 0) n) /\
    preserves_heap w w' /\
    length (heap w') = S (length (heap w)).
Proof.
  intros H opts. eexists _, _, _, _.
  split; [apply (getCertificateOptions_spec self f w H)|].
  split; [apply (getContext_spec SSL self f w hostname port H)|].
  split; [by apply lookup_ge_None_2|].
  simpl. split; [apply lookup_fresh|].
  split; [reflexivity|]. split; [reflexivity|]. split; [reflexivity|].
  split; [reflexivity|].
  split; [intros n; apply lor_flags_testbit|].
  split; [apply preserves_heap_app|].
  rewrite length_app. simpl. lia.
Qed.

Lemma getContext_applies_or_of_flags_witness :
  heap one_factory_world !! 0%nat = Some (CFactory a_factory) /\
  exists ctx c flags w',
    ScrapyClientContextFactory.getCertificateOptions 0%nat one_factory_world
      = (Ok {| verify := false; method := 3; fixBrokenPeers := true;
               acceptableCiphers := default_bundle |}, one_factory_world) /\
    ScrapyClientContextFactory.getContext SSL_old 0%nat (Some example_com)
      (Some 443) one_factory_world = (Ok ctx, w') /\
    heap one_factory_world !! ctx = None /\
    heap w' !! ctx = Some (CContext c) /\
    ctx_source c = {| verify := false; method := 3; fixBrokenPeers := true;
                      acceptableCiphers := default_bundle |} /\
    ctx_applied_options c = [flags] /\
    ctx_protocols c = None /\
    flags = 0x02000004 /\
    (forall n,
       Z.testbit flags n =
         Z.testbit (getattr_default SSL_old "OP_LEGACY_SERVER_CONNECT" 4) n
         || Z.testbit (getattr_default SSL_old "OP_NO_TLSv1" 0) n
         || Z.testbit (getattr_default SSL_old "OP_NO_TLSv1_1" 0) n
         || Z.testbit (getattr_default SSL_old "OP_NO_SSLv2" 0) n
         || Z.testbit (getattr_default SSL_old "OP_NO_SSLv3" 0) n) /\
    preserves_heap one_factory_world w' /\
    length (heap w') = 2%nat.
Proof.
  split; [reflexivity|].
  exact (getContext_applies_or_of_flags SSL_old 0%nat a_factory
           one_factory_world (Some example_com) (Some 443) eq_refl).
Defined.

(** On the old build the applied options are 0x4 | 0x02000000. *)
Example getContext_old_build :
  ScrapyClientContextFactory.getContext SSL_old 0%nat None None one_factory_world =
    (Ok 1%nat,
     {| heap := [CFactory a_factory;
                 CContext {| ctx_source := {| verify := false; method := 3;
                                              fixBrokenPeers := true;
                                              acceptableCiphers := default_bundle |};
                             ctx_applied_options := [0x02000004];
                             ctx_protocols := None |}];
        warnings := [] |}).
Proof. reflexivity. Qed.

(** C6: for every factory instance and port, [creatorForNetloc] on an
    ASCII hostname returns a new per-connection config that carries the
    decoded hostname (one character per byte), the instance's
    verbose-logging flag, and a handshake context built via [getContext]:
    a new context, the very one [getContext] returns and leaves when it
    is called on the same world, made from the instance's certificate
    options with the flag word of the legacy path applied and no
    protocol list.  On a hostname with a byte above 127 it fails with a
    [UnicodeDecodeError] at the first such byte and builds nothing. *)
Theorem creatorForNetloc_contract (SSL : gmap string Z) (self : loc)
    (f : FactoryState) (w : world) (hostname : bytes) (port : Z) :
  heap w !! self = Some (CFactory f) ->
  if is_ascii hostname then
    exists o opt c wc w',
      ScrapyClientContextFactory.creatorForNetloc SSL self hostname port w =
        (Ok o, w') /\
      heap w !! o = None /\
      heap w' !! o = Some (CTLSOptions opt) /\
      _hostname opt = string_of_list_ascii (map ascii_of_byte hostname) /\
      String.length (_hostname opt) = length hostname /\
      verbose_logging opt = tls_verbose_logging f /\
      ScrapyClientContextFactory.getContext SSL self None None w =
        (Ok (_ctx opt), wc) /\
      heap w !! _ctx opt = None /\
      heap wc !! _ctx opt = Some (CContext c) /\
      heap w' !! _ctx opt = Some (CContext c) /\
      ctx_source c = {| verify := false; method := _ssl_method f;
                        fixBrokenPeers := true;
                        acceptableCiphers := tls_ciphers f |} /\
      ctx_applied_options c =
        [Z.lor (getattr_default SSL "OP_LEGACY_SERVER_CONNECT" 4)
           (Z.lor (Z.lor (Z.lor (getattr_default SSL "OP_NO_TLSv1" 0)
                                (getattr_default SSL "OP_NO_TLSv1_1" 0))
                         (getattr_default SSL "OP_NO_SSLv2" 0))
                  (getattr_default SSL "OP_NO_SSLv3" 0))] /\
      ctx_protocols c = None /\
      preserves_heap w w'
  else
    exists i b,
      ScrapyClientContextFactory.creatorForNetloc SSL self hostname port w =
        (Err (UnicodeDecodeError "ascii" i), w) /\
      hostname !! i = Some b /\ (128 <= Byte.to_N b)%N /\
      is_ascii (take i hostname) = true.
Proof.
  intros H. destruct (is_ascii hostname) eqn:Hascii.
  - eexists _, _, _, _, _.
    split; [apply (creatorForNetloc_spec SSL self f w hostname port H Hascii)|].
    split; [apply lookup_ge_None_2; lia|].
    simpl.
    split; [apply lookup_fresh_two|].
    split; [reflexivity|].
    split; [apply length_decoded|].
    split; [reflexivity|].
    split; [apply (getContext_spec SSL self f w None None H)|].
    split; [by apply lookup_ge_None_2|].
    simpl.
    split; [apply lookup_fresh|].
    split; [apply lookup_fresh_two|].
    split; [reflexivity|]. split; [reflexivity|]. split; [reflexivity|].
    apply preserves_heap_app.
  - destruct (creatorForNetloc_not_ascii SSL self w hostname port Hascii)
      as (i & Hi & Hrun).
    destruct (first_non_ascii_spec hostname i Hi) as (Ht & b & Hb & Hge).
    by exists i, b.
Qed.

Lemma creatorForNetloc_contract_witness :
  heap one_factory_world !! 0%nat = Some (CFactory a_factory) /\
  exists o opt c wc w',
    ScrapyClientContextFactory.creatorForNetloc SSL_modern 0%nat example_com 443
      one_factory_world = (Ok o, w') /\
    heap one_factory_world !! o = None /\
    heap w' !! o = Some (CTLSOptions opt) /\
    _hostname opt = "example.com" /\
    String.length (_hostname opt) = 11%nat /\
    verbose_logging opt = true /\
    ScrapyClientContextFactory.getContext SSL_modern 0%nat None None
      one_factory_world = (Ok (_ctx opt), wc) /\
    heap one_factory_world !! _ctx opt = None /\
    heap wc !! _ctx opt = Some (CContext c) /\
    heap w' !! _ctx opt = Some (CContext c) /\
    ctx_source c = {| verify := false; method := 3; fixBrokenPeers := true;
                      acceptableCiphers := default_bundle |} /\
    ctx_applied_options c = [0x17000004] /\
    ctx_protocols c = None /\
    preserves_heap one_factory_world w'.
Proof.
  split; [reflexivity|].
  exact (creatorForNetloc_contract SSL_modern 0%nat a_factory
           one_factory_world example_com 443 eq_refl).
Defined.

(** A hostname with the byte 0xe9 at index 1 is rejected there, and the
    world is left as it was. *)
Example creatorForNetloc_latin1_hostname :
  ScrapyClientContextFactory.creatorForNetloc SSL_modern 0%nat
    [x63; xe9; x2e; x66; x72]%byte 443 one_factory_world =
    (Err (UnicodeDecodeError "ascii" 1), one_factory_world).
Proof. reflexivity. Qed.

(** ** Frame properties *)

Lemma creatorForNetloc_frame (SSL : gmap string Z) (self : loc)
    (f : FactoryState) (w : world) (hostname : bytes) (port : Z) :
  heap w !! self = Some (CFactory f) ->
  let w' := (ScrapyClientContextFactory.creatorForNetloc SSL self hostname port w).2 in
  preserves_heap w w' /\ heap w' !! self = Some (CFactory f).
Proof.
  intros H. destruct (is_ascii hostname) eqn:Hascii.
  - rewrite (creatorForNetloc_spec SSL self f w hostname port H Hascii). simpl.
    split; [apply preserves_heap_app|by apply lookup_app_l_Some].
  - destruct (creatorForNetloc_not_ascii SSL self w hostname port Hascii)
      as (i & _ & ->). simpl. split; [apply preserves_heap_refl|done].
Qed.

Lemma getContext_frame (SSL : gmap string Z) (self : loc)
    (f : FactoryState) (w : world) (hostname : option bytes) (port : option Z) :
  heap w !! self = Some (CFactory f) ->
  let w' := (ScrapyClientContextFactory.getContext SSL self hostname port w).2 in
  preserves_heap w w' /\ heap w' !! self = Some (CFactory f).
Proof.
  intros H. rewrite (getContext_spec SSL self f w hostname port H). simpl.
  split; [apply preserves_heap_app|by apply lookup_app_l_Some].
Qed.

(** C9: a call to [creatorForNetloc] (whatever the hostname and port) or
    to [getContext] leaves the factory instance, and every other object
    that existed before, as it was; and two successive calls of
    [creatorForNetloc] with the same hostname and port return two
    different, newly allocated configs whose contexts are different and
    newly allocated too, the second call leaving the first config and its
    context untouched. *)
Theorem creatorForNetloc_read_only_and_fresh (SSL : gmap string Z) (self : loc)
    (f : FactoryState) (w : world) (hostname : bytes) (port : Z) :
  heap w !! self = Some (CFactory f) ->
  is_ascii hostname = true ->
  (forall h p,
     let w' := (ScrapyClientContextFactory.creatorForNetloc SSL self h p w).2 in
     preserves_heap w w' /\ heap w' !! self = Some (CFactory f)) /\
  (forall h p,
     let w' := (ScrapyClientContextFactory.getContext SSL self h p w).2 in
     preserves_heap w w' /\ heap w' !! self = Some (CFactory f)) /\
  exists o1 o2 opt1 opt2 c1 c2 w1 w2,
    ScrapyClientContextFactory.creatorForNetloc SSL self hostname port w =
      (Ok o1, w1) /\
    ScrapyClientContextFactory.creatorForNetloc SSL self hostname port w1 =
      (Ok o2, w2) /\
    heap w1 !! o1 = Some (CTLSOptions opt1) /\
    heap w1 !! _ctx opt1 = Some (CContext c1) /\
    heap w2 !! o2 = Some (CTLSOptions opt2) /\
    heap w2 !! _ctx opt2 = Some (CContext c2) /\
    heap w2 !! o1 = Some (CTLSOptions opt1) /\
    heap w2 !! _ctx opt1 = Some (CContext c1) /\
    o1 <> o2 /\ _ctx opt1 <> _ctx opt2 /\
    o1 <> _ctx opt2 /\ o2 <> _ctx opt1 /\
    heap w !! o1 = None /\ heap w !! _ctx opt1 = None /\
    heap w1 !! o2 = None /\ heap w1 !! _ctx opt2 = None /\
    heap w2 !! self = Some (CFactory f).
Proof.
  intros H Hascii.
  split; [intros h p; apply (creatorForNetloc_frame SSL self f w h p H)|].
  split; [intros h p; apply (getContext_frame SSL self f w h p H)|].
  pose proof (creatorForNetloc_spec SSL self f w hostname port H Hascii) as E1.
  set (w1 := (ScrapyClientContextFactory.creatorForNetloc SSL self hostname port w).2).
  assert (H1 : heap w1 !! self = Some (CFactory f))
    by apply (creatorForNetloc_frame SSL self f w hostname port H).
  pose proof (creatorForNetloc_spec SSL self f w1 hostname port H1 Hascii) as E2.
  assert (Hw1 : heap w1 = heap w ++
    [CContext {| ctx_source := {| verify := false; method := _ssl_method f;
                                  fixBrokenPeers := true;
                                  acceptableCiphers := tls_ciphers f |};
                 ctx_applied_options :=
                   [Z.lor (ScrapyClientContextFactory.op_legacy SSL)
                          (ScrapyClientContextFactory.disable_flags SSL)];
                 ctx_protocols := None |};
     CTLSOptions {| _hostname := string_of_list_ascii (map ascii_of_byte hostname);
                    _ctx := length (heap w);
                    verbose_logging := tls_verbose_logging f |}])
    by (unfold w1; by rewrite E1).
  assert (Hlen : length (heap w1) = S (S (length (heap w))))
    by (rewrite Hw1, length_app; simpl; lia).
  eexists _, _, _, _, _, _, w1, _.
  split. { unfold w1. rewrite E1. reflexivity. }
  split; [exact E2|]. simpl.
  destruct (lookup_fresh_two (heap w)
    (CContext {| ctx_source := {| verify := false; method := _ssl_method f;
                                  fixBrokenPeers := true;
                                  acceptableCiphers := tls_ciphers f |};
                 ctx_applied_options :=
                   [Z.lor (ScrapyClientContextFactory.op_legacy SSL)
                          (ScrapyClientContextFactory.disable_flags SSL)];
                 ctx_protocols := None |})
    (CTLSOptions {| _hostname := string_of_list_ascii (map ascii_of_byte hostname);
                    _ctx := length (heap w);
                    verbose_logging := tls_verbose_logging f |})) as [Lc Lo].
  rewrite <- Hw1 in Lc, Lo.
  split; [exact Lo|]. split; [exact Lc|].
  split; [apply lookup_fresh_two|]. split; [apply lookup_fresh_two|].
  split; [by apply lookup_app_l_Some|]. split; [by apply lookup_app_l_Some|].
  simpl. rewrite Hlen.
  split; [lia|]. split; [lia|]. split; [lia|]. split; [lia|].
  split; [apply lookup_ge_None_2; lia|].
  split; [apply lookup_ge_None_2; lia|].
  split; [apply lookup_ge_None_2; lia|].
  split; [apply lookup_ge_None_2; lia|].
  by apply lookup_app_l_Some.
Qed.

Lemma creatorForNetloc_read_only_and_fresh_witness :
  heap one_factory_world !! 0%nat = Some (CFactory a_factory) /\
  is_ascii example_com = true /\
  (forall h p,
     let w' := (ScrapyClientContextFactory.creatorForNetloc SSL_modern 0%nat h p
                  one_factory_world).2 in
     preserves_heap one_factory_world w' /\
     heap w' !! 0%nat = Some (CFactory a_factory)) /\
  (forall h p,
     let w' := (ScrapyClientContextFactory.getContext SSL_modern 0%nat h p
                  one_factory_world).2 in
     preserves_heap one_factory_world w' /\
     heap w' !! 0%nat = Some (CFactory a_factory)) /\
  exists o1 o2 opt1 opt2 c1 c2 w1 w2,
    ScrapyClientContextFactory.creatorForNetloc SSL_modern 0%nat example_com 443
      one_factory_world = (Ok o1, w1) /\
    ScrapyClientContextFactory.creatorForNetloc SSL_modern 0%nat example_com 443
      w1 = (Ok o2, w2) /\
    heap w1 !! o1 = Some (CTLSOptions opt1) /\
    heap w1 !! _ctx opt1 = Some (CContext c1) /\
    heap w2 !! o2 = Some (CTLSOptions opt2) /\
    heap w2 !! _ctx opt2 = Some (CContext c2) /\
    heap w2 !! o1 = Some (CTLSOptions opt1) /\
    heap w2 !! _ctx opt1 = Some (CContext c1) /\
    o1 <> o2 /\ _ctx opt1 <> _ctx opt2 /\
    o1 <> _ctx opt2 /\ o2 <> _ctx opt1 /\
    heap one_factory_world !! o1 = None /\
    heap one_factory_world !! _ctx opt1 = None /\
    heap w1 !! o2 = None /\ heap w1 !! _ctx opt2 = None /\
    heap w2 !! 0%nat = Some (CFactory a_factory).
Proof.
  split; [reflexivity|]. split; [reflexivity|].
  exact (creatorForNetloc_read_only_and_fresh SSL_modern 0%nat a_factory
           one_factory_world example_com 443 eq_refl eq_refl).
Defined.

(** Two calls in a row: configs at 2 and 4, contexts at 1 and 3. *)
Example creatorForNetloc_twice :
  ((o1 <- ScrapyClientContextFactory.creatorForNetloc SSL_modern 0%nat example_com 443 ;;
    o2 <- ScrapyClientContextFactory.creatorForNetloc SSL_modern 0%nat example_com 443 ;;
    c1 <- read_options o1 ;;
    c2 <- read_options o2 ;;
    ret (o1, _ctx c1, o2, _ctx c2)) one_factory_world).1
  = Ok (2%nat, 1%nat, 4%nat, 3%nat).
Proof. reflexivity. Qed.

(** ** The protocol-negotiation wrapper *)

Lemma verifyObject_ok_iff (obj : PolicyObject) :
  verifyObject_IPolicyForHTTPS obj = Ok tt <-> satisfies_IPolicyForHTTPS obj.
Proof.
  unfold verifyObject_IPolicyForHTTPS, satisfies_IPolicyForHTTPS.
  destruct (provides_IPolicyForHTTPS obj); simpl.
  - destruct (creatorForNetloc_attr obj) as [m|].
    + destruct (2 <? sig_required m)%nat eqn:Hr.
      * apply Nat.ltb_lt in Hr. split; [discriminate|].
        intros (_ & m' & [= <-] & Hle & _). lia.
      * apply Nat.ltb_ge in Hr.
        destruct (sig_positional m <? 2)%nat eqn:Hp.
        -- apply Nat.ltb_lt in Hp. destruct (sig_varargs m) eqn:Hv; simpl.
           ++ split; [|done]. intros _. split; [done|]. exists m. auto.
           ++ split; [discriminate|].
              intros (_ & m' & [= <-] & _ & [Hge|Hv']); [lia|congruence].
        -- apply Nat.ltb_ge in Hp. simpl. split; [|done].
           intros _. split; [done|]. exists m. auto.
    + split; [discriminate|]. intros (_ & m & Hm & _). discriminate.
  - split; [discriminate|]. intros [Hp _]. discriminate.
Qed.

Lemma verifyObject_err_Invalid (obj : PolicyObject) (e : exn) :
  verifyObject_IPolicyForHTTPS obj = Err e -> exists why, e = Invalid why.
Proof.
  unfold verifyObject_IPolicyForHTTPS.
  destruct (negb _); [intros [= <-]; eauto|].
  destruct (creatorForNetloc_attr obj) as [m|]; [|intros [= <-]; eauto].
  destruct (2 <? _)%nat; [intros [= <-]; eauto|].
  destruct (_ && _); [intros [= <-]; eauto|discriminate].
Qed.

(** C8: constructing the wrapper either succeeds, and then the inner
    factory satisfies the context-factory capability and is stored,
    together with the protocol list, as given; or fails with an error of
    the [Invalid] family, and then the inner factory does not satisfy the
    capability.  So it fails exactly when the capability is missing. *)
Theorem wrapper_construction_validates (context_factory : PolicyObject)
    (acceptable_protocols : list bytes) :
  match AcceptableProtocolsContextFactory.__init__ context_factory
          acceptable_protocols with
  | Ok self =>
      satisfies_IPolicyForHTTPS context_factory /\
      AcceptableProtocolsContextFactory._wrapped_context_factory self
        = context_factory /\
      AcceptableProtocolsContextFactory._acceptable_protocols self
        = acceptable_protocols
  | Err e =>
      ~ satisfies_IPolicyForHTTPS context_factory /\ exists why, e = Invalid why
  end.
Proof.
  unfold AcceptableProtocolsContextFactory.__init__.
  destruct (verifyObject_IPolicyForHTTPS context_factory) as [[]|e] eqn:Hv.
  - simpl. split; [by apply verifyObject_ok_iff|done].
  - split; [|by apply (verifyObject_err_Invalid context_factory)].
    intros Hs. apply verifyObject_ok_iff in Hs. congruence.
Qed.

(** An object that never declared the interface is turned down, even
    though nothing else is known about it. *)
Example wrapper_rejects_plain_object :
  AcceptableProtocolsContextFactory.__init__
    {| provides_IPolicyForHTTPS := false; creatorForNetloc_attr := None |} [h2]
  = Err (Invalid "The object does not implement the interface IPolicyForHTTPS.").
Proof. reflexivity. Qed.

Example wrapper_accepts_base_factory :
  AcceptableProtocolsContextFactory.__init__ (base_as_policy SSL_modern 0%nat) [h2]
  = Ok {| AcceptableProtocolsContextFactory._wrapped_context_factory :=
            base_as_policy SSL_modern 0%nat;
          AcceptableProtocolsContextFactory._acceptable_protocols := [h2] |}.
Proof. reflexivity. Qed.

(** C4: once the wrapper is constructed, its [creatorForNetloc] runs the
    inner factory's [creatorForNetloc] first; when that fails the failure
    is the wrapper's, and when it returns a config the wrapper returns the
    very same config, in the world the inner call produced except that the
    config's context now has exactly the wrapper's protocol list, whatever
    it had before.  The context's other fields, the config itself, every
    other object and the warnings are as the inner call left them. *)
Theorem wrapper_sets_exactly_its_protocols (inner : PolicyObject)
    (protocols : list bytes) (self : AcceptableProtocolsContextFactory.t)
    (hostname : bytes) (port : Z) (w : world) :
  AcceptableProtocolsContextFactory.__init__ inner protocols = Ok self ->
  match call_creatorForNetloc inner hostname port w with
  | (Err e, w1) =>
      AcceptableProtocolsContextFactory.creatorForNetloc self hostname port w
        = (Err e, w1)
  | (Ok options, w1) =>
      forall o c,
        heap w1 !! options = Some (CTLSOptions o) ->
        heap w1 !! _ctx o = Some (CContext c) ->
        exists c' w2,
          AcceptableProtocolsContextFactory.creatorForNetloc self hostname port w
            = (Ok options, w2) /\
          heap w2 !! _ctx o = Some (CContext c') /\
          ctx_protocols c' = Some protocols /\
          ctx_source c' = ctx_source c /\
          ctx_applied_options c' = ctx_applied_options c /\
          heap w2 !! options = Some (CTLSOptions o) /\
          (forall l, l <> _ctx o -> same_cell w1 w2 l) /\
          length (heap w2) = length (heap w1) /\
          warnings w2 = warnings w1
  end.
Proof.
  intros Hinit.
  assert (Hself : self = {| AcceptableProtocolsContextFactory._wrapped_context_factory := inner;
                            AcceptableProtocolsContextFactory._acceptable_protocols := protocols |}).
  { unfold AcceptableProtocolsContextFactory.__init__ in Hinit.
    destruct (verifyObject_IPolicyForHTTPS inner); congruence. }
  subst self.
  unfold AcceptableProtocolsContextFactory.creatorForNetloc, bind. simpl.
  destruct (call_creatorForNetloc inner hostname port w) as [[options|e] w1];
    [|reflexivity].
  intros o c Ho Hc.
  unfold read_options. rewrite Ho.
  unfold _setAcceptableProtocols, bind, read_context, store, ret. rewrite Hc. simpl.
  eexists _, _. split; [reflexivity|]. simpl.
  assert (Hlt : (_ctx o < length (heap w1))%nat) by by eapply lookup_lt_Some.
  split; [by apply list_lookup_insert_eq|].
  split; [reflexivity|]. split; [reflexivity|]. split; [reflexivity|].
  split. { rewrite list_lookup_insert_ne; [done|]. intros E. congruence. }
  split. { intros l Hl. unfold same_cell. simpl. by rewrite list_lookup_insert_ne. }
  split; [apply length_insert|reflexivity].
Qed.

Lemma wrapper_sets_exactly_its_protocols_witness :
  AcceptableProtocolsContextFactory.__init__ (base_as_policy SSL_modern 0%nat)
    [h2; http11]
  = Ok {| AcceptableProtocolsContextFactory._wrapped_context_factory :=
            base_as_policy SSL_modern 0%nat;
          AcceptableProtocolsContextFactory._acceptable_protocols := [h2; http11] |} /\
  exists c' w2,
    AcceptableProtocolsContextFactory.creatorForNetloc
      {| AcceptableProtocolsContextFactory._wrapped_context_factory :=
           base_as_policy SSL_modern 0%nat;
         AcceptableProtocolsContextFactory._acceptable_protocols := [h2; http11] |}
      example_com 443 one_factory_world = (Ok 2%nat, w2) /\
    heap w2 !! 1%nat = Some (CContext c') /\
    ctx_protocols c' = Some [h2; http11] /\
    ctx_source c' = {| verify := false; method := 3; fixBrokenPeers := true;
                       acceptableCiphers := default_bundle |} /\
    ctx_applied_options c' = [0x17000004] /\
    heap w2 !! 2%nat =
      Some (CTLSOptions {| _hostname := "example.com"; _ctx := 1%nat;
                           verbose_logging := true |}) /\
    (forall l, l <> 1%nat ->
       same_cell (call_creatorForNetloc (base_as_policy SSL_modern 0%nat)
                    example_com 443 one_factory_world).2 w2 l) /\
    length (heap w2) = 3%nat /\
    warnings w2 = [].
Proof.
  split; [reflexivity|].
  exact (wrapper_sets_exactly_its_protocols (base_as_policy SSL_modern 0%nat)
           [h2; http11] _ example_com 443 one_factory_world eq_refl
           {| _hostname := "example.com"; _ctx := 1%nat; verbose_logging := true |}
           {| ctx_source := {| verify := false; method := 3; fixBrokenPeers := true;
                               acceptableCiphers := default_bundle |};
              ctx_applied_options := [0x17000004];
              ctx_protocols := None |}
           eq_refl eq_refl).
Defined.

(** A wrapper around a wrapper: whatever the inner one had set ([http/1.1]),
    the outer one's list ([h2]) is what the context ends up with. *)
Example wrapper_overrides_inner_wrapper :
  let inner :=
    {| AcceptableProtocolsContextFactory._wrapped_context_factory :=
         base_as_policy SSL_modern 0%nat;
       AcceptableProtocolsContextFactory._acceptable_protocols := [http11] |} in
  let outer :=
    {| AcceptableProtocolsContextFactory._wrapped_context_factory :=
         AcceptableProtocolsContextFactory.as_policy inner;
       AcceptableProtocolsContextFactory._acceptable_protocols := [h2] |} in
  (options <- AcceptableProtocolsContextFactory.creatorForNetloc inner example_com 443 ;;
   o <- read_options options ;;
   c <- read_context (_ctx o) "protocols" ;;
   ret (ctx_protocols c)) one_factory_world = 
    (Ok (Some [http11]),
     (AcceptableProtocolsContextFactory.creatorForNetloc inner example_com 443
        one_factory_world).2) /\
  (options <- AcceptableProtocolsContextFactory.creatorForNetloc outer example_com 443 ;;
   o <- read_options options ;;
   c <- read_context (_ctx o) "protocols" ;;
   ret (ctx_protocols c)) one_factory_world =
    (Ok (Some [h2]),
     (AcceptableProtocolsContextFactory.creatorForNetloc outer example_com 443
        one_factory_world).2).
Proof. split; reflexivity. Qed.

(** ** Construction of the base factory *)

Section Construction.
Variable SSL : gmap string Z.
Variable fromOpenSSLCipherString : string -> result AcceptableCiphers.
Variable DEFAULT_CIPHERS : AcceptableCiphers.

Local Abbreviation init := (ScrapyClientContextFactory.__init__
                              SSL fromOpenSSLCipherString DEFAULT_CIPHERS).

(** What [__init__] does once the method is known. *)
Lemma init_explicit_method (overridden : bool) (m : Z) (verbose : bool)
    (tls_ciphers : option string) (w : world) :
  init overridden (Some m) verbose tls_ciphers w =
    match (match tls_ciphers with
           | Some (String a s) => fromOpenSSLCipherString (String a s)
           | _ => Ok DEFAULT_CIPHERS
           end) with
    | Ok c =>
        (Ok (length (heap w)),
         {| heap := heap w ++ [CFactory {| _ssl_method := m;
                                           tls_verbose_logging := verbose;
                                           tls_ciphers := c |}];
            warnings :=
              if overridden
              then warnings w ++
                     [{| category := "ScrapyDeprecationWarning";
                         message := ScrapyClientContextFactory.deprecation_message |}]
              else warnings w |})
    | Err e => (Err e, w)
    end.
Proof.
  unfold ScrapyClientContextFactory.__init__, bind, ret, lift, alloc, warn.
  destruct tls_ciphers as [[|a s]|]; simpl;
    try destruct (fromOpenSSLCipherString (String a s));
    destruct overridden; reflexivity.
Qed.

(** With the method omitted, [__init__] needs [SSLv23_METHOD] and then
    goes on as if the probed method had been passed. *)
Lemma init_omitted_method (overridden verbose : bool)
    (tls_ciphers : option string) (w : world) :
  init overridden None verbose tls_ciphers w =
    match SSL !! "SSLv23_METHOD" with
    | Some v =>
        init overridden
          (Some (match SSL !! "TLS_METHOD" with Some t => t | None => v end))
          verbose tls_ciphers w
    | None => (Err (AttributeError "SSLv23_METHOD"), w)
    end.
Proof.
  unfold ScrapyClientContextFactory.__init__, bind at 1, lift, getattr,
    getattr_default.
  destruct (SSL !! "SSLv23_METHOD") as [v|]; reflexivity.
Qed.

Lemma init_allocates (overridden : bool) (method : option Z) (verbose : bool)
    (tls_ciphers : option string) (w w1 : world) (self : loc) :
  init overridden method verbose tls_ciphers w = (Ok self, w1) ->
  exists m c,
    heap w1 !! self = Some (CFactory {| _ssl_method := m;
                                        tls_verbose_logging := verbose;
                                        tls_ciphers := c |}) /\
    (forall x, method = Some x -> m = x) /\
    match tls_ciphers with
    | Some (String a s) => fromOpenSSLCipherString (String a s) = Ok c
    | _ => c = DEFAULT_CIPHERS
    end.
Proof.
  assert (Hexplicit : forall x,
    init overridden (Some x) verbose tls_ciphers w = (Ok self, w1) ->
    exists c,
      heap w1 !! self = Some (CFactory {| _ssl_method := x;
                                          tls_verbose_logging := verbose;
                                          tls_ciphers := c |}) /\
      match tls_ciphers with
      | Some (String a s) => fromOpenSSLCipherString (String a s) = Ok c
      | _ => c = DEFAULT_CIPHERS
      end).
  { intros x. rewrite init_explicit_method.
    destruct tls_ciphers as [[|a s]|];
      try destruct (fromOpenSSLCipherString (String a s)) eqn:Hp;
      intros [= <- <-]; eexists; (split; [apply lookup_fresh|done]). }
  destruct method as [x|].
  - intros H. destruct (Hexplicit x H) as (c & Hc & Hp).
    exists x, c. split; [done|]. split; [congruence|done].
  - rewrite init_omitted_method.
    destruct (SSL !! "SSLv23_METHOD") as [v|]; [|discriminate].
    intros H. destruct (Hexplicit _ H) as (c & Hc & Hp).
    eexists _, c. split; [exact Hc|]. split; [discriminate|done].
Qed.

(** C3, as the code has it: for every instance that [__init__] has
    constructed, and in every later world in which that instance is still
    as constructed, [getCertificateOptions] calls [CertificateOptions],
    without changing anything, with [verify] false, [fixBrokenPeers] true,
    the instance's resolved method (the one passed in, when one was
    passed, and otherwise [TLS_METHOD] or, failing that, [SSLv23_METHOD])
    and as cipher policy the parse of the cipher string when that string
    is not empty and the default bundle when it is empty or [None].  The
    policy is whatever the parser returned: nothing makes it name a
    cipher. *)
Theorem getCertificateOptions_postcondition (overridden : bool)
    (method_arg : option Z) (verbose : bool) (tls_ciphers_arg : option string)
    (w w1 w2 : world) (self : loc) :
  init overridden method_arg verbose tls_ciphers_arg w = (Ok self, w1) ->
  same_cell w1 w2 self ->
  exists f opts,
    heap w2 !! self = Some (CFactory f) /\
    ScrapyClientContextFactory.getCertificateOptions self w2 = (Ok opts, w2) /\
    opts = {| verify := false; method := _ssl_method f;
              fixBrokenPeers := true; acceptableCiphers := tls_ciphers f |} /\
    match method_arg with
    | Some x => method opts = x
    | None =>
        exists v, SSL !! "SSLv23_METHOD" = Some v /\
                  method opts = default v (SSL !! "TLS_METHOD")
    end /\
    match tls_ciphers_arg with
    | Some (String a s) =>
        fromOpenSSLCipherString (String a s) = Ok (acceptableCiphers opts)
    | Some EmptyString | None => acceptableCiphers opts = DEFAULT_CIPHERS
    end.
Proof.
  intros H Hsame.
  assert (Hmethod : forall m c,
    heap w1 !! self = Some (CFactory {| _ssl_method := m;
                                        tls_verbose_logging := verbose;
                                        tls_ciphers := c |}) ->
    match method_arg with
    | Some x => m = x
    | None =>
        exists v, SSL !! "SSLv23_METHOD" = Some v /\
                  m = default v (SSL !! "TLS_METHOD")
    end).
  { intros m c Hcell. destruct method_arg as [x|].
    - destruct (init_allocates _ _ _ _ _ _ _ H) as (m' & c' & Hcell' & Hm & _).
      rewrite Hcell in Hcell'. injection Hcell' as -> _. by apply Hm.
    - rewrite init_omitted_method in H.
      destruct (SSL !! "SSLv23_METHOD") as [v|]; [|discriminate].
      exists v. split; [reflexivity|].
      destruct (init_allocates _ _ _ _ _ _ _ H) as (m' & c' & Hcell' & Hm & _).
      rewrite Hcell in Hcell'. injection Hcell' as -> _.
      rewrite (Hm _ eq_refl). by destruct (SSL !! "TLS_METHOD"). }
  destruct (init_allocates _ _ _ _ _ _ _ H) as (m & c & Hcell & _ & Hc).
  specialize (Hmethod m c Hcell).
  unfold same_cell in Hsame. rewrite <- Hsame in Hcell.
  eexists _, _. split; [exact Hcell|].
  split; [apply (getCertificateOptions_spec self _ w2 Hcell)|]. simpl.
  split; [reflexivity|]. split; [exact Hmethod|exact Hc].
Qed.

End Construction.

Lemma getCertificateOptions_postcondition_witness :
  ScrapyClientContextFactory.__init__ SSL_modern parse_one_name default_bundle
    false None true (Some "ECDHE+AESGCM") empty_world =
    (Ok 0%nat,
     {| heap := [CFactory {| _ssl_method := 7; tls_verbose_logging := true;
                             tls_ciphers := {| cipher_names := ["ECDHE+AESGCM"] |} |}];
        warnings := [] |}) /\
  same_cell
    {| heap := [CFactory {| _ssl_method := 7; tls_verbose_logging := true;
                            tls_ciphers := {| cipher_names := ["ECDHE+AESGCM"] |} |}];
       warnings := [] |}
    (ScrapyClientContextFactory.creatorForNetloc SSL_modern 0%nat example_com 443
       {| heap := [CFactory {| _ssl_method := 7; tls_verbose_logging := true;
                               tls_ciphers := {| cipher_names := ["ECDHE+AESGCM"] |} |}];
          warnings := [] |}).2
    0%nat /\
  exists f opts,
    heap (ScrapyClientContextFactory.creatorForNetloc SSL_modern 0%nat
            example_com 443
            {| heap := [CFactory {| _ssl_method := 7; tls_verbose_logging := true;
                                    tls_ciphers :=
                                      {| cipher_names := ["ECDHE+AESGCM"] |} |}];
               warnings := [] |}).2 !! 0%nat = Some (CFactory f) /\
    ScrapyClientContextFactory.getCertificateOptions 0%nat
      (ScrapyClientContextFactory.creatorForNetloc SSL_modern 0%nat example_com 443
         {| heap := [CFactory {| _ssl_method := 7; tls_verbose_logging := true;
                                 tls_ciphers :=
                                   {| cipher_names := ["ECDHE+AESGCM"] |} |}];
            warnings := [] |}).2 =
      (Ok opts,
       (ScrapyClientContextFactory.creatorForNetloc SSL_modern 0%nat example_com 443
          {| heap := [CFactory {| _ssl_method := 7; tls_verbose_logging := true;
                                  tls_ciphers :=
                                    {| cipher_names := ["ECDHE+AESGCM"] |} |}];
             warnings := [] |}).2) /\
    opts = {| verify := false; method := _ssl_method f;
              fixBrokenPeers := true; acceptableCiphers := tls_ciphers f |} /\
    (exists v, SSL_modern !! "SSLv23_METHOD" = Some v /\
               method opts = default v (SSL_modern !! "TLS_METHOD")) /\
    parse_one_name "ECDHE+AESGCM" = Ok (acceptableCiphers opts).
Proof.
  split; [reflexivity|]. split; [reflexivity|].
  exact (getCertificateOptions_postcondition SSL_modern parse_one_name
           default_bundle false None true (Some "ECDHE+AESGCM") empty_world
           {| heap := [CFactory {| _ssl_method := 7; tls_verbose_logging := true;
                                   tls_ciphers :=
                                     {| cipher_names := ["ECDHE+AESGCM"] |} |}];
              warnings := [] |}
           (ScrapyClientContextFactory.creatorForNetloc SSL_modern 0%nat
              example_com 443
              {| heap := [CFactory {| _ssl_method := 7; tls_verbose_logging := true;
                                      tls_ciphers :=
                                        {| cipher_names := ["ECDHE+AESGCM"] |} |}];
                 warnings := [] |}).2
           0%nat eq_refl eq_refl).
Defined.

(** C3 as stated fails in its last clause: the cipher string ["!ALL"] is
    not empty, the parser accepts it, and it selects no cipher; the
    instance is constructed and the policy [getCertificateOptions] hands
    to [CertificateOptions] is empty, although the default bundle is
    not. *)
Lemma cipher_policy_can_be_empty :
  cipher_names default_bundle <> [] /\
  parse_one_name "!ALL" = Ok {| cipher_names := [] |} /\
  (self <- ScrapyClientContextFactory.__init__ SSL_modern parse_one_name
             default_bundle false (Some 3) false (Some "!ALL") ;;
   ScrapyClientContextFactory.getCertificateOptions self) empty_world =
    (Ok {| verify := false; method := 3; fixBrokenPeers := true;
           acceptableCiphers := {| cipher_names := [] |} |},
     {| heap := [CFactory {| _ssl_method := 3; tls_verbose_logging := false;
                             tls_ciphers := {| cipher_names := [] |} |}];
        warnings := [] |}) /\
  ~ cipher_policy_never_empty parse_one_name default_bundle.
Proof.
  split; [discriminate|]. split; [reflexivity|]. split; [reflexivity|].
  intros H.
  apply (H SSL_modern false (Some 3) false (Some "!ALL") empty_world
           {| heap := [CFactory {| _ssl_method := 3; tls_verbose_logging := false;
                                   tls_ciphers := {| cipher_names := [] |} |}];
              warnings := [] |}
           0%nat
           {| verify := false; method := 3; fixBrokenPeers := true;
              acceptableCiphers := {| cipher_names := [] |} |});
    reflexivity.
Qed.

(** The empty cipher string and [None] both give the default bundle. *)
Example empty_cipher_string_gives_default :
  (self <- ScrapyClientContextFactory.__init__ SSL_modern parse_one_name
             default_bundle false (Some 3) false (Some "") ;;
   ScrapyClientContextFactory.getCertificateOptions self) empty_world
  = (self <- ScrapyClientContextFactory.__init__ SSL_modern parse_one_name
               default_bundle false (Some 3) false None ;;
     ScrapyClientContextFactory.getCertificateOptions self) empty_world
  /\
  ((self <- ScrapyClientContextFactory.__init__ SSL_modern parse_one_name
              default_bundle false (Some 3) false (Some "") ;;
    ScrapyClientContextFactory.getCertificateOptions self) empty_world).1
  = Ok {| verify := false; method := 3; fixBrokenPeers := true;
          acceptableCiphers := default_bundle |}.
Proof. split; reflexivity. Qed.

(** A cipher string the library rejects makes construction fail, with the
    library's error and before any instance exists. *)
Example rejected_cipher_string :
  ScrapyClientContextFactory.__init__ SSL_modern parse_one_name default_bundle
    false (Some 3) false (Some latin1_ciphers) empty_world
  = (Err (Raised "UnicodeEncodeError" "'ascii' codec can't encode character"),
     empty_world).
Proof. reflexivity. Qed.

(** ** The capability probe *)

(** C1, as the code has it: on every library that has [SSLv23_METHOD]
    (the module cannot be imported otherwise), constructing with the
    method omitted is constructing with [TLS_METHOD] when the library has
    it and with [SSLv23_METHOD] otherwise; each of the four
    protocol-disable flags is the library's value when present and 0 when
    absent; the legacy-server-connect bit is the library's value when
    present and 4 when absent; and [getContext] on an instance returns a
    context whatever symbols are missing. *)
Theorem capability_probe_defaults (SSL : gmap string Z)
    (fromOpenSSLCipherString : string -> result AcceptableCiphers)
    (DEFAULT_CIPHERS : AcceptableCiphers) (v : Z) :
  SSL !! "SSLv23_METHOD" = Some v ->
  ScrapyClientContextFactory.from_crawler_default SSL = Ok v /\
  (forall overridden verbose tls_ciphers w,
     ScrapyClientContextFactory.__init__ SSL fromOpenSSLCipherString
       DEFAULT_CIPHERS overridden None verbose tls_ciphers w =
     ScrapyClientContextFactory.__init__ SSL fromOpenSSLCipherString
       DEFAULT_CIPHERS overridden
       (Some (default v (SSL !! "TLS_METHOD"))) verbose tls_ciphers w) /\
  ScrapyClientContextFactory.op_no_tlsv1 SSL = default 0 (SSL !! "OP_NO_TLSv1") /\
  ScrapyClientContextFactory.op_no_tlsv1_1 SSL = default 0 (SSL !! "OP_NO_TLSv1_1") /\
  ScrapyClientContextFactory.op_no_sslv2 SSL = default 0 (SSL !! "OP_NO_SSLv2") /\
  ScrapyClientContextFactory.op_no_sslv3 SSL = default 0 (SSL !! "OP_NO_SSLv3") /\
  ScrapyClientContextFactory.op_legacy SSL =
    default 4 (SSL !! "OP_LEGACY_SERVER_CONNECT") /\
  (forall self f w hostname port,
     heap w !! self = Some (CFactory f) ->
     exists ctx w',
       ScrapyClientContextFactory.getContext SSL self hostname port w = (Ok ctx, w')).
Proof.
  intros Hv.
  split. { unfold ScrapyClientContextFactory.from_crawler_default, getattr.
           by rewrite Hv. }
  split.
  { intros overridden verbose tls_ciphers w.
    rewrite init_omitted_method, Hv. by destruct (SSL !! "TLS_METHOD"). }
  unfold ScrapyClientContextFactory.op_no_tlsv1,
    ScrapyClientContextFactory.op_no_tlsv1_1,
    ScrapyClientContextFactory.op_no_sslv2,
    ScrapyClientContextFactory.op_no_sslv3,
    ScrapyClientContextFactory.op_legacy, getattr_default.
  repeat (split; [by case_match|]).
  intros self f w hostname port H. eexists _, _.
  apply (getContext_spec SSL self f w hostname port H).
Qed.

Lemma capability_probe_defaults_witness :
  SSL_old !! "SSLv23_METHOD" = Some 3 /\
  ScrapyClientContextFactory.from_crawler_default SSL_old = Ok 3 /\
  (forall overridden verbose tls_ciphers w,
     ScrapyClientContextFactory.__init__ SSL_old parse_one_name
       default_bundle overridden None verbose tls_ciphers w =
     ScrapyClientContextFactory.__init__ SSL_old parse_one_name
       default_bundle overridden (Some 3) verbose tls_ciphers w) /\
  ScrapyClientContextFactory.op_no_tlsv1 SSL_old = 0 /\
  ScrapyClientContextFactory.op_no_tlsv1_1 SSL_old = 0 /\
  ScrapyClientContextFactory.op_no_sslv2 SSL_old = 0 /\
  ScrapyClientContextFactory.op_no_sslv3 SSL_old = 0x02000000 /\
  ScrapyClientContextFactory.op_legacy SSL_old = 4 /\
  (forall self f w hostname port,
     heap w !! self = Some (CFactory f) ->
     exists ctx w',
       ScrapyClientContextFactory.getContext SSL_old self hostname port w
         = (Ok ctx, w')).
Proof.
  split; [reflexivity|].
  exact (capability_probe_defaults SSL_old parse_one_name default_bundle 3 eq_refl).
Defined.

(** C1 as stated fails twice: where the library lacks
    [OP_LEGACY_SERVER_CONNECT] the substituted value is 4, not 0; and
    where it lacks [SSLv23_METHOD], constructing with the method omitted
    raises [AttributeError] even though [TLS_METHOD] is there. *)
Lemma capability_probe_not_always_zero_nor_total :
  SSL_old !! "OP_LEGACY_SERVER_CONNECT" = None /\
  ScrapyClientContextFactory.op_legacy SSL_old = 4 /\
  ~ (forall SSL : gmap string Z,
       SSL !! "OP_LEGACY_SERVER_CONNECT" = None ->
       ScrapyClientContextFactory.op_legacy SSL = 0) /\
  SSL_without_SSLv23 !! "TLS_METHOD" = Some 7 /\
  ScrapyClientContextFactory.__init__ SSL_without_SSLv23 parse_one_name
    default_bundle false None false None empty_world
  = (Err (AttributeError "SSLv23_METHOD"), empty_world).
Proof.
  split; [reflexivity|]. split; [reflexivity|].
  split; [|split; reflexivity].
  intros H. specialize (H SSL_old eq_refl). discriminate H.
Qed.

(** ** Construction through [from_crawler] *)

(** C10, as the code has it: the [method] parameter of [from_crawler]
    defaults to the library's [SSLv23_METHOD], and the method is always
    handed to the constructor as a keyword.  When the caller leaves
    [method] out or passes a number - the resolver does one or the other -
    the constructor gets that number, the instance's method is that
    number, and the result is the same on every library with that
    [SSLv23_METHOD], whether or not it has [TLS_METHOD]: the probe is not
    consulted.  When the caller passes [None], [None] is what the
    constructor gets, and the probe runs as in a direct call with the
    method omitted.  The constructor itself probes exactly when its method
    is [None]. *)
Theorem from_crawler_bypasses_probe (SSL : gmap string Z)
    (fromOpenSSLCipherString : string -> result AcceptableCiphers)
    (DEFAULT_CIPHERS : AcceptableCiphers) (v : Z)
    (crawler : Crawler) (w : world) :
  SSL !! "SSLv23_METHOD" = Some v ->
  let verbose := DOWNLOADER_CLIENT_TLS_VERBOSE_LOGGING (settings crawler) in
  let ciphers := DOWNLOADER_CLIENT_TLS_CIPHERS (settings crawler) in
  let init_on lib :=
    ScrapyClientContextFactory.__init__ lib fromOpenSSLCipherString DEFAULT_CIPHERS in
  exists f,
    ScrapyClientContextFactory.from_crawler SSL fromOpenSSLCipherString DEFAULT_CIPHERS = Ok f /\
    f crawler Omitted w = init_on SSL false (Some v) verbose ciphers w /\
    (forall m,
       f crawler (Passed (Some m)) w =
       init_on SSL false (Some m) verbose ciphers w) /\
    f crawler (Passed None) w = init_on SSL false None verbose ciphers w /\
    (forall method self w1,
       method <> Passed None ->
       f crawler method w = (Ok self, w1) ->
       exists st,
         heap w1 !! self = Some (CFactory st) /\
         _ssl_method st = match method with
                          | Passed (Some m) => m
                          | _ => v
                          end) /\
    (forall SSL' f' method,
       method <> Passed None ->
       SSL' !! "SSLv23_METHOD" = Some v ->
       ScrapyClientContextFactory.from_crawler SSL' fromOpenSSLCipherString DEFAULT_CIPHERS = Ok f' ->
       f' crawler method w = f crawler method w) /\
    (forall m,
       build_from_crawler
         (ScrapyClientContextFactory_class SSL fromOpenSSLCipherString DEFAULT_CIPHERS v)
         crawler m w =
       f crawler (match m with Some x => Passed (Some x) | None => Omitted end) w) /\
    (forall SSL' overridden x verbose' ciphers',
       init_on SSL overridden (Some x) verbose' ciphers' w =
       init_on SSL' overridden (Some x) verbose' ciphers' w) /\
    (forall overridden verbose' ciphers',
       init_on SSL overridden None verbose' ciphers' w =
       init_on SSL overridden (Some (default v (SSL !! "TLS_METHOD")))
         verbose' ciphers' w).
Proof.
  intros Hv verbose ciphers init_on.
  exists (ScrapyClientContextFactory.from_crawler_function
            SSL fromOpenSSLCipherString DEFAULT_CIPHERS v).
  split.
  { unfold ScrapyClientContextFactory.from_crawler,
      ScrapyClientContextFactory.from_crawler_default, getattr.
    by rewrite Hv. }
  split; [reflexivity|]. split; [reflexivity|]. split; [reflexivity|].
  split.
  { intros method self w1 Hne H.
    destruct method as [|[m|]]; [| |done];
      unfold ScrapyClientContextFactory.from_crawler_function in H;
      destruct (init_allocates _ _ _ _ _ _ _ _ _ _ H) as (m' & c & Hcell & Hm & _);
      (eexists; split; [exact Hcell|]; simpl; by apply Hm). }
  split.
  { intros SSL' f' method Hne Hv' Hf'.
    unfold ScrapyClientContextFactory.from_crawler,
      ScrapyClientContextFactory.from_crawler_default, getattr in Hf'.
    rewrite Hv' in Hf'. injection Hf' as <-.
    destruct method as [|[m|]]; [| |done];
      unfold ScrapyClientContextFactory.from_crawler_function;
      by rewrite !init_explicit_method. }
  split; [by intros [m|]|].
  split; [intros; unfold init_on; by rewrite !init_explicit_method|].
  intros overridden verbose' ciphers'. unfold init_on.
  rewrite init_omitted_method, Hv. by destruct (SSL !! "TLS_METHOD").
Qed.

Lemma from_crawler_bypasses_probe_witness :
  SSL_modern !! "SSLv23_METHOD" = Some 3 /\
  let verbose := DOWNLOADER_CLIENT_TLS_VERBOSE_LOGGING (settings base_crawler) in
  let ciphers := DOWNLOADER_CLIENT_TLS_CIPHERS (settings base_crawler) in
  let init_on lib :=
    ScrapyClientContextFactory.__init__ lib parse_one_name default_bundle in
  exists f,
    ScrapyClientContextFactory.from_crawler SSL_modern parse_one_name default_bundle = Ok f /\
    f base_crawler Omitted empty_world = init_on SSL_modern false (Some 3) verbose ciphers empty_world /\
    (forall m,
       f base_crawler (Passed (Some m)) empty_world =
       init_on SSL_modern false (Some m) verbose ciphers empty_world) /\
    f base_crawler (Passed None) empty_world = init_on SSL_modern false None verbose ciphers empty_world /\
    (forall method self w1,
       method <> Passed None ->
       f base_crawler method empty_world = (Ok self, w1) ->
       exists st,
         heap w1 !! self = Some (CFactory st) /\
         _ssl_method st = match method with
                          | Passed (Some m) => m
                          | _ => 3
                          end) /\
    (forall SSL' f' method,
       method <> Passed None ->
       SSL' !! "SSLv23_METHOD" = Some 3 ->
       ScrapyClientContextFactory.from_crawler SSL' parse_one_name default_bundle = Ok f' ->
       f' base_crawler method empty_world = f base_crawler method empty_world) /\
    (forall m,
       build_from_crawler
         (ScrapyClientContextFactory_class SSL_modern parse_one_name default_bundle 3)
         base_crawler m empty_world =
       f base_crawler (match m with Some x => Passed (Some x) | None => Omitted end) empty_world) /\
    (forall SSL' overridden x verbose' ciphers',
       init_on SSL_modern overridden (Some x) verbose' ciphers' empty_world =
       init_on SSL' overridden (Some x) verbose' ciphers' empty_world) /\
    (forall overridden verbose' ciphers',
       init_on SSL_modern overridden None verbose' ciphers' empty_world =
       init_on SSL_modern overridden (Some (default 3 (SSL_modern !! "TLS_METHOD")))
         verbose' ciphers' empty_world).
Proof.
  split; [reflexivity|].
  exact (from_crawler_bypasses_probe SSL_modern parse_one_name default_bundle 3
           base_crawler empty_world eq_refl).
Defined.

(** C10 as stated fails for a caller that passes [None]: on two libraries
    with the same [SSLv23_METHOD], one with [TLS_METHOD] and one without,
    [from_crawler(crawler, method=None)] builds instances with different
    methods - on the first the probe has picked [TLS_METHOD]. *)
Lemma from_crawler_forwards_None :
  SSL_modern !! "SSLv23_METHOD" = SSL_old !! "SSLv23_METHOD" /\
  SSL_modern !! "TLS_METHOD" = Some 7 /\
  SSL_old !! "TLS_METHOD" = None /\
  (exists f f',
     ScrapyClientContextFactory.from_crawler SSL_modern parse_one_name
       default_bundle = Ok f /\
     ScrapyClientContextFactory.from_crawler SSL_old parse_one_name
       default_bundle = Ok f' /\
     f base_crawler (Passed None) empty_world =
       (Ok 0%nat,
        {| heap := [CFactory {| _ssl_method := 7; tls_verbose_logging := false;
                                tls_ciphers := default_bundle |}];
           warnings := [] |}) /\
     f' base_crawler (Passed None) empty_world =
       (Ok 0%nat,
        {| heap := [CFactory {| _ssl_method := 3; tls_verbose_logging := false;
                                tls_ciphers := default_bundle |}];
           warnings := [] |})) /\
  ~ from_crawler_never_probes.
Proof.
  split; [reflexivity|]. split; [reflexivity|]. split; [reflexivity|].
  split.
  { eexists _, _. split; [reflexivity|]. split; [reflexivity|].
    split; reflexivity. }
  intros H.
  specialize (H SSL_modern SSL_old parse_one_name default_bundle _ _
                base_crawler (Passed None) empty_world eq_refl eq_refl eq_refl).
  vm_compute in H. discriminate H.
Qed.

(** On a library with [TLS_METHOD] = 7 and [SSLv23_METHOD] = 3: through
    [from_crawler] with the method left out the instance gets method 3,
    through the bare constructor method 7. *)
Example from_crawler_versus_bare_constructor :
  (match ScrapyClientContextFactory.from_crawler SSL_modern parse_one_name
           default_bundle with
   | Ok f => f base_crawler Omitted empty_world
   | Err e => (Err e, empty_world)
   end)
  = (Ok 0%nat,
     {| heap := [CFactory {| _ssl_method := 3; tls_verbose_logging := false;
                             tls_ciphers := default_bundle |}];
        warnings := [] |}) /\
  ScrapyClientContextFactory.__init__ SSL_modern parse_one_name
    default_bundle false None false (Some "") empty_world
  = (Ok 0%nat,
     {| heap := [CFactory {| _ssl_method := 7; tls_verbose_logging := false;
                             tls_ciphers := default_bundle |}];
        warnings := [] |}).
Proof. split; reflexivity. Qed.

(** ** The resolver *)

Section ResolverProofs.
Variable openssl_methods : gmap string Z.
Variable load_object : option string -> result FactoryClass.

(** C7: the resolver's first step is the lookup of the configured name in
    the method table.  When the name is there, the lookup yields its
    method and the resolver goes on to load and construct the class with
    it; when it is not there (or no name is configured) the resolver fails
    with the [KeyError] of that lookup, in an unchanged world: nothing was
    loaded or constructed and no warning was emitted. *)
Theorem resolver_method_lookup (settings : Settings) (crawler : Crawler)
    (w : world) :
  let name := DOWNLOADER_CLIENT_TLS_METHOD settings in
  match name ≫= (openssl_methods !!.) with
  | Some m =>
      openssl_methods_getitem openssl_methods name = Ok m /\
      load_context_factory_from_settings openssl_methods load_object
        settings crawler w =
      (cls <- lift (load_object (DOWNLOADER_CLIENTCONTEXTFACTORY settings)) ;;
       construct_with_fallback cls settings crawler m) w
  | None =>
      openssl_methods_getitem openssl_methods name = Err (KeyError name) /\
      load_context_factory_from_settings openssl_methods load_object
        settings crawler w = (Err (KeyError name), w)
  end.
Proof.
  intros name. unfold load_context_factory_from_settings.
  fold name. unfold bind at 1, lift at 1, openssl_methods_getitem.
  destruct name as [n|]; simpl; [|done].
  by destruct (openssl_methods !! n).
Qed.

(** How the [try]/[except TypeError] of the resolver unfolds. *)
Lemma construct_with_fallback_cases (cls : FactoryClass) (settings : Settings)
    (crawler : Crawler) (m : Z) (w : world) :
  construct_with_fallback cls settings crawler m w =
    match build_from_crawler cls crawler (Some m) w with
    | (Ok factory, w1) => (Ok factory, w1)
    | (Err e, w1) =>
        if is_TypeError e then
          match build_from_crawler cls crawler None w1 with
          | (Ok factory, w2) =>
              (Ok factory,
               {| heap := heap w2;
                  warnings := warnings w2 ++
                    [{| category := "UserWarning";
                        message := compatibility_message
                          (DOWNLOADER_CLIENTCONTEXTFACTORY settings) |}] |})
          | (Err e', w2) => (Err e', w2)
          end
        else (Err e, w1)
    end.
Proof.
  unfold construct_with_fallback, try_except.
  destruct (build_from_crawler cls crawler (Some m) w) as [[factory|e] w1];
    [reflexivity|].
  destruct (is_TypeError e); [|reflexivity].
  unfold bind, warn, ret.
  by destruct (build_from_crawler cls crawler None w1) as [[factory|e'] w2].
Qed.

Lemma string_append_assoc (s1 s2 s3 : string) :
  (s1 +:+ s2) +:+ s3 = s1 +:+ (s2 +:+ s3).
Proof.
  induction s1 as [|a s1 IH]; [reflexivity|].
  change (String a ((s1 +:+ s2) +:+ s3) = String a (s1 +:+ (s2 +:+ s3))).
  by rewrite IH.
Qed.

Lemma compatibility_message_names (path : option string) :
  occurs_in "`method`" (compatibility_message path) /\
  occurs_in "`tls_verbose_logging`" (compatibility_message path) /\
  occurs_in "`tls_ciphers`" (compatibility_message path).
Proof.
  unfold compatibility_message, occurs_in. split; [|split].
  - exists (py_str path +:+ " does not accept a "),
      " argument (type OpenSSL.SSL method, e.g. OpenSSL.SSL.SSLv23_METHOD) and/or a `tls_verbose_logging` argument and/or a `tls_ciphers` argument. Please, upgrade your context factory class to handle them or ignore them.".
    rewrite string_append_assoc. reflexivity.
  - exists (py_str path +:+ " does not accept a `method` argument (type OpenSSL.SSL method, e.g. OpenSSL.SSL.SSLv23_METHOD) and/or a "),
      " argument and/or a `tls_ciphers` argument. Please, upgrade your context factory class to handle them or ignore them.".
    rewrite string_append_assoc. reflexivity.
  - exists (py_str path +:+ " does not accept a `method` argument (type OpenSSL.SSL method, e.g. OpenSSL.SSL.SSLv23_METHOD) and/or a `tls_verbose_logging` argument and/or a "),
      " argument. Please, upgrade your context factory class to handle them or ignore them.".
    rewrite string_append_assoc. reflexivity.
Qed.

(** C2, as the code has it: once the method is looked up and the class
    loaded, the resolver constructs with [method].  If that succeeds, its
    result is the resolver's and nothing is warned.  If it fails with a
    [TypeError] - a rejected [method] keyword is one - the resolver
    constructs again with no extra argument, in the world the failed
    attempt left; when the retry succeeds it appends one [UserWarning]
    whose text names [method], [tls_verbose_logging] and [tls_ciphers],
    and when the retry fails its failure is the resolver's and nothing is
    warned.  If the first attempt fails with anything that is not a
    [TypeError], that failure is the resolver's, unmodified, and there is
    no retry. *)
Theorem resolver_retries_on_TypeError (settings : Settings) (crawler : Crawler)
    (cls : FactoryClass) (m : Z) (w : world) :
  openssl_methods_getitem openssl_methods
    (DOWNLOADER_CLIENT_TLS_METHOD settings) = Ok m ->
  load_object (DOWNLOADER_CLIENTCONTEXTFACTORY settings) = Ok cls ->
  load_context_factory_from_settings openssl_methods load_object
    settings crawler w =
    match build_from_crawler cls crawler (Some m) w with
    | (Ok factory, w1) => (Ok factory, w1)
    | (Err e, w1) =>
        if is_TypeError e then
          match build_from_crawler cls crawler None w1 with
          | (Ok factory, w2) =>
              (Ok factory,
               {| heap := heap w2;
                  warnings := warnings w2 ++
                    [{| category := "UserWarning";
                        message := compatibility_message
                          (DOWNLOADER_CLIENTCONTEXTFACTORY settings) |}] |})
          | (Err e', w2) => (Err e', w2)
          end
        else (Err e, w1)
    end /\
  (forall e, is_signature_mismatch e = true -> is_TypeError e = true) /\
  occurs_in "`method`"
    (compatibility_message (DOWNLOADER_CLIENTCONTEXTFACTORY settings)) /\
  occurs_in "`tls_verbose_logging`"
    (compatibility_message (DOWNLOADER_CLIENTCONTEXTFACTORY settings)) /\
  occurs_in "`tls_ciphers`"
    (compatibility_message (DOWNLOADER_CLIENTCONTEXTFACTORY settings)).
Proof.
  intros Hm Hcls.
  split.
  - unfold load_context_factory_from_settings, bind, lift.
    rewrite Hm, Hcls. apply construct_with_fallback_cases.
  - split; [|apply compatibility_message_names].
    intros [| |[kw|msg]| | |]; simpl; done.
Qed.

End ResolverProofs.

Lemma resolver_retries_on_TypeError_witness :
  openssl_methods_getitem method_table
    (DOWNLOADER_CLIENT_TLS_METHOD (with_factory "legacy.Factory")) = Ok 3 /\
  load_by_path (DOWNLOADER_CLIENTCONTEXTFACTORY (with_factory "legacy.Factory"))
    = Ok LegacyFactory /\
  load_context_factory_from_settings method_table load_by_path
    (with_factory "legacy.Factory") base_crawler empty_world =
    (Ok 0%nat,
     {| heap := [CFactory a_factory];
        warnings :=
          [{| category := "UserWarning";
              message := compatibility_message (Some "legacy.Factory") |}] |}) /\
  (forall e, is_signature_mismatch e = true -> is_TypeError e = true) /\
  occurs_in "`method`" (compatibility_message (Some "legacy.Factory")) /\
  occurs_in "`tls_verbose_logging`" (compatibility_message (Some "legacy.Factory")) /\
  occurs_in "`tls_ciphers`" (compatibility_message (Some "legacy.Factory")).
Proof.
  split; [reflexivity|]. split; [reflexivity|].
  exact (resolver_retries_on_TypeError method_table load_by_path
           (with_factory "legacy.Factory") base_crawler LegacyFactory 3
           empty_world eq_refl eq_refl).
Defined.

(** C2 as stated fails: [FaultyFactory] accepts [method] and raises a
    [TypeError] of its own from its constructor body.  That is not a
    signature mismatch, yet the resolver swallows it, constructs again
    without arguments, warns that the class "does not accept a `method`
    argument", and returns a factory. *)
Lemma resolver_masks_other_TypeErrors :
  build_from_crawler FaultyFactory base_crawler (Some 3) empty_world =
    (Err (TypeError (OtherTypeError
            "unsupported operand type(s) for +: 'int' and 'str'")),
     empty_world) /\
  is_signature_mismatch
    (TypeError (OtherTypeError
       "unsupported operand type(s) for +: 'int' and 'str'")) = false /\
  load_context_factory_from_settings method_table load_by_path
    (with_factory "faulty.Factory") base_crawler empty_world =
    (Ok 0%nat,
     {| heap := [CFactory a_factory];
        warnings :=
          [{| category := "UserWarning";
              message := compatibility_message (Some "faulty.Factory") |}] |}) /\
  ~ propagates_all_but_signature_mismatch.
Proof.
  split; [reflexivity|]. split; [reflexivity|]. split; [reflexivity|].
  intros H.
  specialize (H method_table load_by_path (with_factory "faulty.Factory")
                base_crawler FaultyFactory 3 empty_world empty_world
                (TypeError (OtherTypeError
                   "unsupported operand type(s) for +: 'int' and 'str'"))
                eq_refl eq_refl eq_refl eq_refl).
  discriminate H.
Qed.

(** A failure that is not a [TypeError] does propagate, and a known method
    name with the stock class gives a factory and no warning. *)
Example resolver_propagates_ValueError :
  load_context_factory_from_settings method_table load_by_path
    (with_factory "failing.Factory") base_crawler empty_world =
    (Err (Raised "ValueError" "bad configuration"), empty_world).
Proof. reflexivity. Qed.

Example resolver_stock_class :
  load_context_factory_from_settings method_table load_by_path
    base_settings base_crawler empty_world =
    (Ok 0%nat,
     {| heap := [CFactory {| _ssl_method := 3; tls_verbose_logging := false;
                             tls_ciphers := default_bundle |}];
        warnings := [] |}).
Proof. reflexivity. Qed.

(** The unknown method name "FOO": a [KeyError] for that name, and the
    world is untouched. *)
Example resolver_unknown_method_FOO :
  load_context_factory_from_settings method_table load_by_path
    {| DOWNLOADER_CLIENT_TLS_METHOD := Some "FOO";
       DOWNLOADER_CLIENT_TLS_VERBOSE_LOGGING := false;
       DOWNLOADER_CLIENT_TLS_CIPHERS := None;
       DOWNLOADER_CLIENTCONTEXTFACTORY := Some "legacy.Factory" |}
    base_crawler empty_world =
    (Err (KeyError (Some "FOO")), empty_world).
Proof. reflexivity. Qed.

(** * Further properties of the context factories *)

(** ** Construction is all or nothing *)

(** X1: [__init__] either fails and leaves the world exactly as it was (no
    instance, and no deprecation warning even for a subclass that
    overrides [getContext]), or allocates one instance after the existing
    objects and warns once if and only if [getContext] is overridden.  It
    can fail for two reasons only: the method is omitted and the library
    has no [SSLv23_METHOD], or the cipher string is not empty and the
    parser rejects it - then with the parser's error. *)
Theorem init_all_or_nothing (SSL : gmap string Z)
    (fromOpenSSLCipherString : string -> result AcceptableCiphers)
    (DEFAULT_CIPHERS : AcceptableCiphers)
    (overridden : bool) (method_arg : option Z) (verbose : bool)
    (tls_ciphers_arg : option string) (w : world) :
  match ScrapyClientContextFactory.__init__ SSL fromOpenSSLCipherString
          DEFAULT_CIPHERS overridden method_arg verbose tls_ciphers_arg w with
  | (Ok self, w') =>
      self = length (heap w) /\
      (exists f, heap w' = heap w ++ [CFactory f] /\
                 tls_verbose_logging f = verbose) /\
      warnings w' =
        (if overridden
         then warnings w ++
                [{| category := "ScrapyDeprecationWarning";
                    message := ScrapyClientContextFactory.deprecation_message |}]
         else warnings w)
  | (Err e, w') =>
      w' = w /\
      ((method_arg = None /\ SSL !! "SSLv23_METHOD" = None /\
        e = AttributeError "SSLv23_METHOD") \/
       (exists a s, tls_ciphers_arg = Some (String a s) /\
                    fromOpenSSLCipherString (String a s) = Err e))
  end.
Proof.
  assert (Hexplicit : forall m,
    match ScrapyClientContextFactory.__init__ SSL fromOpenSSLCipherString
            DEFAULT_CIPHERS overridden (Some m) verbose tls_ciphers_arg w with
    | (Ok self, w') =>
        self = length (heap w) /\
        (exists f, heap w' = heap w ++ [CFactory f] /\
                   tls_verbose_logging f = verbose) /\
        warnings w' =
          (if overridden
           then warnings w ++
                  [{| category := "ScrapyDeprecationWarning";
                      message := ScrapyClientContextFactory.deprecation_message |}]
           else warnings w)
    | (Err e, w') =>
        w' = w /\
        exists a s, tls_ciphers_arg = Some (String a s) /\
                    fromOpenSSLCipherString (String a s) = Err e
    end).
  { intros m. rewrite init_explicit_method.
    destruct tls_ciphers_arg as [[|a s]|];
      try destruct (fromOpenSSLCipherString (String a s)) eqn:Hp; simpl;
      try (split; [reflexivity|split; [eexists; split; reflexivity|reflexivity]]).
    split; [reflexivity|]. by exists a, s. }
  destruct method_arg as [m|].
  - specialize (Hexplicit m).
    destruct (ScrapyClientContextFactory.__init__ _ _ _ _ _ _ _ _) as [[self|e] w'];
      [exact Hexplicit|].
    destruct Hexplicit as [-> H]. split; [reflexivity|by right].
  - rewrite init_omitted_method.
    destruct (SSL !! "SSLv23_METHOD") as [v|] eqn:Hv.
    + specialize (Hexplicit (match SSL !! "TLS_METHOD" with
                             | Some t => t | None => v end)).
      destruct (ScrapyClientContextFactory.__init__ _ _ _ _ _ _ _ _)
        as [[self|e] w']; [exact Hexplicit|].
      destruct Hexplicit as [-> H]. split; [reflexivity|by right].
    + split; [reflexivity|]. by left.
Qed.

(** X2: on a library without [SSLv23_METHOD] the class default of
    [from_crawler] cannot be evaluated, and every construction with the
    method omitted raises [AttributeError] for that name - whether or not
    the library has [TLS_METHOD], whatever the cipher string is (the
    parser is not reached), and without any trace in the world. *)
Theorem init_without_SSLv23_always_raises (SSL : gmap string Z)
    (fromOpenSSLCipherString : string -> result AcceptableCiphers)
    (DEFAULT_CIPHERS : AcceptableCiphers) :
  SSL !! "SSLv23_METHOD" = None ->
  ScrapyClientContextFactory.from_crawler_default SSL
    = Err (AttributeError "SSLv23_METHOD") /\
  forall overridden verbose tls_ciphers w,
    ScrapyClientContextFactory.__init__ SSL fromOpenSSLCipherString
      DEFAULT_CIPHERS overridden None verbose tls_ciphers w
    = (Err (AttributeError "SSLv23_METHOD"), w).
Proof.
  intros H. split.
  - unfold ScrapyClientContextFactory.from_crawler_default, getattr.
    by rewrite H.
  - intros. by rewrite init_omitted_method, H.
Qed.

Lemma init_without_SSLv23_always_raises_witness :
  SSL_without_SSLv23 !! "SSLv23_METHOD" = None /\
  ScrapyClientContextFactory.from_crawler_default SSL_without_SSLv23
    = Err (AttributeError "SSLv23_METHOD") /\
  forall overridden verbose tls_ciphers w,
    ScrapyClientContextFactory.__init__ SSL_without_SSLv23 parse_one_name
      default_bundle overridden None verbose tls_ciphers w
    = (Err (AttributeError "SSLv23_METHOD"), w).
Proof.
  split; [reflexivity|].
  exact (init_without_SSLv23_always_raises SSL_without_SSLv23 parse_one_name
           default_bundle eq_refl).
Defined.

(** ** The resolver on the stock class *)

(** X3: when the configured method name is known and the configured class
    is [ScrapyClientContextFactory], the resolver returns a new instance
    whose method is the table's entry for that name (not the library's
    [TLS_METHOD]), and whose verbose flag and ciphers are read from
    [crawler.settings] (the [settings] argument only supplies the method
    name and the class path); nothing is warned.  If the parser rejects the
    cipher string, with a [TypeError] or anything else, the resolver fails
    with that very error and the world is as before: the fallback
    construction changes neither the error nor the warnings. *)
Theorem resolver_stock_class_result (SSL : gmap string Z)
    (fromOpenSSLCipherString : string -> result AcceptableCiphers)
    (DEFAULT_CIPHERS : AcceptableCiphers) (SSLv23_METHOD : Z)
    (openssl_methods : gmap string Z)
    (load_object : option string -> result FactoryClass)
    (settings_arg : Settings) (crawler : Crawler) (m : Z) (w : world) :
  openssl_methods_getitem openssl_methods
    (DOWNLOADER_CLIENT_TLS_METHOD settings_arg) = Ok m ->
  load_object (DOWNLOADER_CLIENTCONTEXTFACTORY settings_arg) =
    Ok (ScrapyClientContextFactory_class SSL fromOpenSSLCipherString
          DEFAULT_CIPHERS SSLv23_METHOD) ->
  load_context_factory_from_settings openssl_methods load_object
    settings_arg crawler w =
    match (match DOWNLOADER_CLIENT_TLS_CIPHERS (settings crawler) with
           | Some (String a s) => fromOpenSSLCipherString (String a s)
           | _ => Ok DEFAULT_CIPHERS
           end) with
    | Ok c =>
        (Ok (length (heap w)),
         {| heap := heap w ++
              [CFactory
                 {| _ssl_method := m;
                    tls_verbose_logging :=
                      DOWNLOADER_CLIENT_TLS_VERBOSE_LOGGING (settings crawler);
                    tls_ciphers := c |}];
            warnings := warnings w |})
    | Err e => (Err e, w)
    end.
Proof.
  intros Hm Hcls.
  unfold load_context_factory_from_settings, bind, lift.
  rewrite Hm, Hcls, construct_with_fallback_cases.
  unfold build_from_crawler, ScrapyClientContextFactory_class. simpl.
  unfold ScrapyClientContextFactory.from_crawler_function.
  rewrite !init_explicit_method.
  destruct (DOWNLOADER_CLIENT_TLS_CIPHERS (settings crawler)) as [[|a s]|];
    try reflexivity.
  destruct (fromOpenSSLCipherString (String a s)) as [c|e] eqn:Hp;
    [reflexivity|].
  destruct (is_TypeError e); [|reflexivity].
  rewrite init_explicit_method, Hp. reflexivity.
Qed.

Lemma resolver_stock_class_result_witness :
  openssl_methods_getitem method_table
    (DOWNLOADER_CLIENT_TLS_METHOD
       {| DOWNLOADER_CLIENT_TLS_METHOD := Some "TLSv1.2";
          DOWNLOADER_CLIENT_TLS_VERBOSE_LOGGING := true;
          DOWNLOADER_CLIENT_TLS_CIPHERS := Some "IGNORED";
          DOWNLOADER_CLIENTCONTEXTFACTORY :=
            Some "scrapy.core.downloader.contextfactory.ScrapyClientContextFactory" |})
    = Ok 6 /\
  load_by_path
    (Some "scrapy.core.downloader.contextfactory.ScrapyClientContextFactory")
    = Ok (ScrapyClientContextFactory_class SSL_modern parse_one_name
            default_bundle 3) /\
  load_context_factory_from_settings method_table load_by_path
    {| DOWNLOADER_CLIENT_TLS_METHOD := Some "TLSv1.2";
       DOWNLOADER_CLIENT_TLS_VERBOSE_LOGGING := true;
       DOWNLOADER_CLIENT_TLS_CIPHERS := Some "IGNORED";
       DOWNLOADER_CLIENTCONTEXTFACTORY :=
         Some "scrapy.core.downloader.contextfactory.ScrapyClientContextFactory" |}
    base_crawler empty_world =
    (Ok 0%nat,
     {| heap := [CFactory {| _ssl_method := 6; tls_verbose_logging := false;
                             tls_ciphers := default_bundle |}];
        warnings := [] |}).
Proof.
  split; [reflexivity|]. split; [reflexivity|].
  exact (resolver_stock_class_result SSL_modern parse_one_name default_bundle 3
           method_table load_by_path
           {| DOWNLOADER_CLIENT_TLS_METHOD := Some "TLSv1.2";
              DOWNLOADER_CLIENT_TLS_VERBOSE_LOGGING := true;
              DOWNLOADER_CLIENT_TLS_CIPHERS := Some "IGNORED";
              DOWNLOADER_CLIENTCONTEXTFACTORY :=
                Some "scrapy.core.downloader.contextfactory.ScrapyClientContextFactory" |}
           base_crawler 6 empty_world eq_refl eq_refl).
Defined.

(** ** Wrappers around the base factory *)

Lemma read_options_at (l : loc) (o : ClientTLSOptions) (w : world) :
  heap w !! l = Some (CTLSOptions o) -> read_options l w = (Ok o, w).
Proof. intros H. unfold read_options. by rewrite H. Qed.

Lemma setAcceptableProtocols_at (ctx : loc) (c : Context)
    (protocols : list bytes) (w : world) :
  heap w !! ctx = Some (CContext c) ->
  _setAcceptableProtocols ctx protocols w =
    (Ok tt, {| heap := <[ctx := CContext (with_protocols c protocols)]> (heap w);
               warnings := warnings w |}).
Proof.
  intros H. unfold _setAcceptableProtocols, bind, read_context, store.
  by rewrite H.
Qed.

(** What the wrapper around a base factory runs, and its result on an
    ASCII hostname. *)
Lemma wrapper_over_base_unfold (SSL : gmap string Z) (self : loc)
    (protocols : list bytes) (hostname : bytes) (port : Z) (w : world) :
  AcceptableProtocolsContextFactory.creatorForNetloc
    {| AcceptableProtocolsContextFactory._wrapped_context_factory :=
         base_as_policy SSL self;
       AcceptableProtocolsContextFactory._acceptable_protocols := protocols |}
    hostname port w =
  (options <- ScrapyClientContextFactory.creatorForNetloc SSL self hostname port ;;
   o <- read_options options ;;
   _setAcceptableProtocols (_ctx o) protocols ;;;
   ret options) w.
Proof. reflexivity. Qed.

Lemma wrapper_over_base_run (SSL : gmap string Z) (self : loc)
    (f : FactoryState) (protocols : list bytes) (hostname : bytes) (port : Z)
    (w : world) :
  heap w !! self = Some (CFactory f) ->
  is_ascii hostname = true ->
  AcceptableProtocolsContextFactory.creatorForNetloc
    {| AcceptableProtocolsContextFactory._wrapped_context_factory :=
         base_as_policy SSL self;
       AcceptableProtocolsContextFactory._acceptable_protocols := protocols |}
    hostname port w =
    (Ok (S (length (heap w))),
     {| heap := heap w ++
          [CContext (with_protocols (context_of SSL f) protocols);
           CTLSOptions {| _hostname := string_of_list_byte hostname;
                          _ctx := length (heap w);
                          verbose_logging := tls_verbose_logging f |}];
        warnings := warnings w |}).
Proof.
  intros H Hascii. rewrite wrapper_over_base_unfold. unfold bind. cbv beta.
  rewrite (creatorForNetloc_spec SSL self f w hostname port H Hascii).
  cbv beta iota.
  destruct (lookup_fresh_two (heap w) (CContext (context_of SSL f))
    (CTLSOptions {| _hostname := string_of_list_byte hostname;
                    _ctx := length (heap w);
                    verbose_logging := tls_verbose_logging f |})) as [Lc Lo].
  match goal with
  | |- context [read_options _ ?W] => rewrite (read_options_at _ _ W Lo)
  end.
  cbv beta iota delta [_ctx].
  match goal with
  | |- context [_setAcceptableProtocols _ _ ?W] =>
      rewrite (setAcceptableProtocols_at _ _ protocols W Lc)
  end.
  cbv beta iota. unfold ret. simpl. do 2 f_equal.
  apply insert_fresh_two.
Qed.

(** X5: a wrapper around a base factory instance is always accepted, and
    its [creatorForNetloc] gives, for an ASCII hostname, just what the base
    factory gives - a new context and a new config after the existing
    objects, same method, ciphers, flags, hostname and verbose flag -
    with the wrapper's protocol list on the context; for any other
    hostname it fails with the base factory's [UnicodeDecodeError] and
    nothing is allocated. *)
Theorem wrapper_over_base_factory (SSL : gmap string Z) (self : loc)
    (f : FactoryState) (protocols : list bytes) (hostname : bytes) (port : Z)
    (w : world) :
  heap w !! self = Some (CFactory f) ->
  let wrapper :=
    {| AcceptableProtocolsContextFactory._wrapped_context_factory :=
         base_as_policy SSL self;
       AcceptableProtocolsContextFactory._acceptable_protocols := protocols |} in
  AcceptableProtocolsContextFactory.__init__ (base_as_policy SSL self) protocols
    = Ok wrapper /\
  if is_ascii hostname then
    AcceptableProtocolsContextFactory.creatorForNetloc wrapper hostname port w =
      (Ok (S (length (heap w))),
       {| heap := heap w ++
            [CContext (with_protocols (context_of SSL f) protocols);
             CTLSOptions {| _hostname := string_of_list_byte hostname;
                            _ctx := length (heap w);
                            verbose_logging := tls_verbose_logging f |}];
          warnings := warnings w |})
  else
    exists i,
      first_non_ascii hostname = Some i /\
      AcceptableProtocolsContextFactory.creatorForNetloc wrapper hostname port w =
        (Err (UnicodeDecodeError "ascii" i), w).
Proof.
  intros H wrapper. split; [reflexivity|].
  destruct (is_ascii hostname) eqn:Hascii.
  - exact (wrapper_over_base_run SSL self f protocols hostname port w H Hascii).
  - destruct (creatorForNetloc_not_ascii SSL self w hostname port Hascii)
      as (i & Hi & E).
    exists i. split; [done|].
    unfold wrapper. rewrite wrapper_over_base_unfold. unfold bind.
    by rewrite E.
Qed.

Lemma wrapper_over_base_factory_witness :
  heap one_factory_world !! 0%nat = Some (CFactory a_factory) /\
  AcceptableProtocolsContextFactory.__init__ (base_as_policy SSL_old 0%nat) [h2]
    = Ok {| AcceptableProtocolsContextFactory._wrapped_context_factory :=
              base_as_policy SSL_old 0%nat;
            AcceptableProtocolsContextFactory._acceptable_protocols := [h2] |} /\
  AcceptableProtocolsContextFactory.creatorForNetloc
    {| AcceptableProtocolsContextFactory._wrapped_context_factory :=
         base_as_policy SSL_old 0%nat;
       AcceptableProtocolsContextFactory._acceptable_protocols := [h2] |}
    example_com 443 one_factory_world =
    (Ok 2%nat,
     {| heap := [CFactory a_factory;
                 CContext (with_protocols (context_of SSL_old a_factory) [h2]);
                 CTLSOptions {| _hostname := "example.com"; _ctx := 1%nat;
                                verbose_logging := true |}];
        warnings := [] |}).
Proof.
  split; [reflexivity|].
  exact (wrapper_over_base_factory SSL_old 0%nat a_factory [h2] example_com 443
           one_factory_world eq_refl).
Defined.

(** X6: two wrappers around the same base factory do not interfere.  Each
    call builds a context of its own, so after a call through the first
    wrapper and a call through the second, the first config's context
    still carries the first protocol list and the second config's context
    the second list; the factory and the older objects are untouched. *)
Theorem wrappers_of_one_factory_do_not_interfere (SSL : gmap string Z)
    (self : loc) (f : FactoryState) (protocols1 protocols2 : list bytes)
    (hostname1 hostname2 : bytes) (port1 port2 : Z) (w : world) :
  heap w !! self = Some (CFactory f) ->
  is_ascii hostname1 = true ->
  is_ascii hostname2 = true ->
  let first :=
    {| AcceptableProtocolsContextFactory._wrapped_context_factory :=
         base_as_policy SSL self;
       AcceptableProtocolsContextFactory._acceptable_protocols := protocols1 |} in
  let second :=
    {| AcceptableProtocolsContextFactory._wrapped_context_factory :=
         base_as_policy SSL self;
       AcceptableProtocolsContextFactory._acceptable_protocols := protocols2 |} in
  let n := length (heap w) in
  (options1 <- AcceptableProtocolsContextFactory.creatorForNetloc first hostname1 port1 ;;
   options2 <- AcceptableProtocolsContextFactory.creatorForNetloc second hostname2 port2 ;;
   ret (options1, options2)) w =
  (Ok (S n, S (S (S n))),
   {| heap := heap w ++
        [CContext (with_protocols (context_of SSL f) protocols1);
         CTLSOptions {| _hostname := string_of_list_byte hostname1;
                        _ctx := n;
                        verbose_logging := tls_verbose_logging f |};
         CContext (with_protocols (context_of SSL f) protocols2);
         CTLSOptions {| _hostname := string_of_list_byte hostname2;
                        _ctx := S (S n);
                        verbose_logging := tls_verbose_logging f |}];
      warnings := warnings w |}).
Proof.
  intros H Hascii1 Hascii2 first second n. unfold first, second, n, bind.
  rewrite (wrapper_over_base_run SSL self f protocols1 hostname1 port1 w H Hascii1).
  cbv beta iota.
  match goal with
  | |- context [AcceptableProtocolsContextFactory.creatorForNetloc _ _ _ ?W] =>
      assert (H1 : heap W !! self = Some (CFactory f))
        by (by apply lookup_app_l_Some);
      rewrite (wrapper_over_base_run SSL self f protocols2 hostname2 port2 W H1 Hascii2)
  end.
  cbv beta iota. unfold ret. simpl.
  rewrite length_app, <- app_assoc. simpl.
  by replace (length (heap w) + 2)%nat with (S (S (length (heap w)))) by lia.
Qed.

Lemma wrappers_of_one_factory_do_not_interfere_witness :
  heap one_factory_world !! 0%nat = Some (CFactory a_factory) /\
  is_ascii example_com = true /\
  (options1 <- AcceptableProtocolsContextFactory.creatorForNetloc
                 {| AcceptableProtocolsContextFactory._wrapped_context_factory :=
                      base_as_policy SSL_old 0%nat;
                    AcceptableProtocolsContextFactory._acceptable_protocols := [h2] |}
                 example_com 443 ;;
   options2 <- AcceptableProtocolsContextFactory.creatorForNetloc
                 {| AcceptableProtocolsContextFactory._wrapped_context_factory :=
                      base_as_policy SSL_old 0%nat;
                    AcceptableProtocolsContextFactory._acceptable_protocols := [http11] |}
                 example_com 8443 ;;
   ret (options1, options2)) one_factory_world =
  (Ok (2%nat, 4%nat),
   {| heap := [CFactory a_factory;
               CContext (with_protocols (context_of SSL_old a_factory) [h2]);
               CTLSOptions {| _hostname := "example.com"; _ctx := 1%nat;
                              verbose_logging := true |};
               CContext (with_protocols (context_of SSL_old a_factory) [http11]);
               CTLSOptions {| _hostname := "example.com"; _ctx := 3%nat;
                              verbose_logging := true |}];
      warnings := [] |}).
Proof.
  split; [reflexivity|]. split; [reflexivity|].
  exact (wrappers_of_one_factory_do_not_interfere SSL_old 0%nat a_factory
           [h2] [http11] example_com example_com 443 8443 one_factory_world
           eq_refl eq_refl eq_refl).
Defined.

(** ** Hostnames *)

Lemma creatorForNetloc_ok_inv (SSL : gmap string Z) (self : loc)
    (hostname : bytes) (port : Z) (w w' : world) (options : loc) :
  ScrapyClientContextFactory.creatorForNetloc SSL self hostname port w
    = (Ok options, w') ->
  is_ascii hostname = true /\ exists f, heap w !! self = Some (CFactory f).
Proof.
  intros H. destruct (is_ascii hostname) eqn:Hascii.
  - split; [reflexivity|].
    destruct (heap w !! self) as [[f|c|o]|] eqn:Hs; [by exists f| | |];
      (unfold ScrapyClientContextFactory.creatorForNetloc, bind, lift,
         decode_ascii in H;
       rewrite (decode_ascii_from_ok hostname 0 Hascii) in H;
       unfold ScrapyClientContextFactory.getContext,
         ScrapyClientContextFactory.getCertificateOptions, bind,
         read_factory in H;
       rewrite Hs in H; discriminate).
  - destruct (creatorForNetloc_not_ascii SSL self w hostname port Hascii)
      as (i & _ & E).
    rewrite E in H. discriminate.
Qed.

(** X7: whenever [creatorForNetloc] succeeds, the hostname of the config
    it returns is the requested hostname, byte for byte: encoding the
    text back gives the bytes that were passed, so its length is theirs
    and two different hostnames never give the same config hostname. *)
Theorem creatorForNetloc_hostname_round_trip (SSL : gmap string Z)
    (self : loc) (hostname : bytes) (port : Z) (w w' : world) (options : loc) :
  ScrapyClientContextFactory.creatorForNetloc SSL self hostname port w
    = (Ok options, w') ->
  exists o, heap w' !! options = Some (CTLSOptions o) /\
            list_byte_of_string (_hostname o) = hostname /\
            String.length (_hostname o) = length hostname.
Proof.
  intros H.
  destruct (creatorForNetloc_ok_inv SSL self hostname port w w' options H)
    as (Hascii & f & Hs).
  rewrite (creatorForNetloc_spec SSL self f w hostname port Hs Hascii) in H.
  injection H as <- <-.
  eexists. split; [apply lookup_fresh_two|]. simpl.
  split; [apply list_byte_of_string_of_list_byte|apply length_decoded].
Qed.

Lemma creatorForNetloc_hostname_round_trip_witness :
  ScrapyClientContextFactory.creatorForNetloc SSL_old 0%nat example_com 443
    one_factory_world =
    (Ok 2%nat,
     {| heap := [CFactory a_factory;
                 CContext (context_of SSL_old a_factory);
                 CTLSOptions {| _hostname := "example.com"; _ctx := 1%nat;
                                verbose_logging := true |}];
        warnings := [] |}) /\
  exists o,
    [CFactory a_factory;
     CContext (context_of SSL_old a_factory);
     CTLSOptions {| _hostname := "example.com"; _ctx := 1%nat;
                    verbose_logging := true |}] !! 2%nat = Some (CTLSOptions o) /\
    list_byte_of_string (_hostname o) = example_com /\
    String.length (_hostname o) = length example_com.
Proof.
  split; [reflexivity|].
  exact (creatorForNetloc_hostname_round_trip SSL_old 0%nat example_com 443
           one_factory_world _ 2%nat eq_refl).
Defined.

(** ** The browser-like subclass *)

Section BrowserLikeProofs.
Variable TrustRoot : Type.
Variable platformTrust : M TrustRoot.
Variable optionsForClientTLS : string -> TrustRoot -> gmap string Z -> M loc.

Local Abbreviation browser_creatorForNetloc :=
  (BrowserLikeContextFactory.creatorForNetloc
     TrustRoot platformTrust optionsForClientTLS).

(** X8: the subclass validates the hostname before it touches Twisted.
    For a hostname that is not ASCII it raises the [UnicodeDecodeError]
    the base class raises, at the first offending byte, and leaves the
    world as it was, whatever [platformTrust] and [optionsForClientTLS]
    would have done: neither has run. *)
Theorem browser_like_validates_hostname_first (SSL : gmap string Z)
    (self : loc) (hostname : bytes) (port : Z) (w : world) :
  is_ascii hostname = false ->
  exists i,
    first_non_ascii hostname = Some i /\
    browser_creatorForNetloc self hostname port w =
      (Err (UnicodeDecodeError "ascii" i), w) /\
    ScrapyClientContextFactory.creatorForNetloc SSL self hostname port w =
      (Err (UnicodeDecodeError "ascii" i), w).
Proof.
  intros H.
  destruct (creatorForNetloc_not_ascii SSL self w hostname port H)
    as (i & Hi & E).
  exists i. split; [done|]. split; [|done].
  destruct (decode_ascii_from_err hostname 0 H) as (j & Hj & Hd).
  assert (j = i) as -> by congruence.
  unfold BrowserLikeContextFactory.creatorForNetloc, bind, lift, decode_ascii.
  by rewrite Hd.
Qed.

(** X9: the subclass forwards nothing of the factory but its TLS method.
    Once the trust root is loaded, two instances with the same method
    give the same result for a hostname, whatever their cipher strings
    and verbose-logging flags are and whatever ports are asked for. *)
Theorem browser_like_forwards_only_method (self1 self2 : loc)
    (f1 f2 : FactoryState) (hostname : bytes) (port1 port2 : Z)
    (w w1 : world) (trustRoot : TrustRoot) :
  platformTrust w = (Ok trustRoot, w1) ->
  heap w1 !! self1 = Some (CFactory f1) ->
  heap w1 !! self2 = Some (CFactory f2) ->
  _ssl_method f1 = _ssl_method f2 ->
  browser_creatorForNetloc self1 hostname port1 w =
  browser_creatorForNetloc self2 hostname port2 w.
Proof.
  intros Ht H1 H2 Hm.
  unfold BrowserLikeContextFactory.creatorForNetloc, bind, lift.
  destruct (decode_ascii hostname) as [host|e]; [|reflexivity].
  rewrite Ht. unfold read_factory. by rewrite H1, H2, Hm.
Qed.

End BrowserLikeProofs.

Lemma browser_like_validates_hostname_first_witness :
  is_ascii latin1_host = false /\
  exists i,
    first_non_ascii latin1_host = Some i /\
    BrowserLikeContextFactory.creatorForNetloc unit token_platformTrust
      verifying_optionsForClientTLS 0%nat latin1_host 443 one_factory_world =
      (Err (UnicodeDecodeError "ascii" i), one_factory_world) /\
    ScrapyClientContextFactory.creatorForNetloc SSL_old 0%nat latin1_host 443
      one_factory_world =
      (Err (UnicodeDecodeError "ascii" i), one_factory_world).
Proof.
  split; [reflexivity|].
  exact (browser_like_validates_hostname_first unit token_platformTrust
           verifying_optionsForClientTLS SSL_old 0%nat latin1_host 443
           one_factory_world eq_refl).
Defined.

Lemma browser_like_forwards_only_method_witness :
  token_platformTrust two_factory_world = (Ok tt, two_factory_world) /\
  heap two_factory_world !! 0%nat = Some (CFactory a_factory) /\
  heap two_factory_world !! 1%nat = Some (CFactory another_factory) /\
  tls_ciphers a_factory <> tls_ciphers another_factory /\
  BrowserLikeContextFactory.creatorForNetloc unit token_platformTrust
    verifying_optionsForClientTLS 0%nat example_com 443 two_factory_world =
  BrowserLikeContextFactory.creatorForNetloc unit token_platformTrust
    verifying_optionsForClientTLS 1%nat example_com 8443 two_factory_world.
Proof.
  split; [reflexivity|]. split; [reflexivity|]. split; [reflexivity|].
  split; [discriminate|].
  exact (browser_like_forwards_only_method unit token_platformTrust
           verifying_optionsForClientTLS 0%nat 1%nat a_factory another_factory
           example_com 443 8443 two_factory_world two_factory_world tt
           eq_refl eq_refl eq_refl eq_refl).
Defined.

(** ** From the settings to a connection *)

Lemma resolver_stock_class_ok (SSL : gmap string Z)
    (fromOpenSSLCipherString : string -> result AcceptableCiphers)
    (DEFAULT_CIPHERS : AcceptableCiphers) (SSLv23_METHOD : Z)
    (openssl_methods : gmap string Z)
    (load_object : option string -> result FactoryClass)
    (settings_arg : Settings) (crawler : Crawler) (m : Z)
    (c : AcceptableCiphers) (w : world) :
  openssl_methods_getitem openssl_methods
    (DOWNLOADER_CLIENT_TLS_METHOD settings_arg) = Ok m ->
  load_object (DOWNLOADER_CLIENTCONTEXTFACTORY settings_arg) =
    Ok (ScrapyClientContextFactory_class SSL fromOpenSSLCipherString
          DEFAULT_CIPHERS SSLv23_METHOD) ->
  match DOWNLOADER_CLIENT_TLS_CIPHERS (settings crawler) with
  | Some (String a s) => fromOpenSSLCipherString (String a s)
  | _ => Ok DEFAULT_CIPHERS
  end = Ok c ->
  load_context_factory_from_settings openssl_methods load_object
    settings_arg crawler w =
    (Ok (length (heap w)),
     {| heap := heap w ++
          [CFactory
             {| _ssl_method := m;
                tls_verbose_logging :=
                  DOWNLOADER_CLIENT_TLS_VERBOSE_LOGGING (settings crawler);
                tls_ciphers := c |}];
        warnings := warnings w |}).
Proof.
  intros Hm Hcls Hc.
  unfold load_context_factory_from_settings, bind, lift.
  rewrite Hm, Hcls, construct_with_fallback_cases.
  unfold build_from_crawler, ScrapyClientContextFactory_class. simpl.
  unfold ScrapyClientContextFactory.from_crawler_function.
  rewrite !init_explicit_method.
  destruct (DOWNLOADER_CLIENT_TLS_CIPHERS (settings crawler)) as [[|a s]|].
  1, 3: by injection Hc as <-.
  by rewrite Hc.
Qed.

(** X10: the settings reach the connection.  With the stock class
    configured, a known method name and a cipher string the parser accepts
    (or none), resolving the factory and asking it for the config of an
    ASCII hostname succeeds and adds three objects to the existing ones,
    which stay as they were: the factory, a context whose method is the
    table's entry for the configured name and whose ciphers are the parsed
    ones, with the flag word applied, and a config for that hostname on
    that context whose verbose flag is the
    [DOWNLOADER_CLIENT_TLS_VERBOSE_LOGGING] of [crawler.settings]. *)
Theorem settings_reach_the_connection (SSL : gmap string Z)
    (fromOpenSSLCipherString : string -> result AcceptableCiphers)
    (DEFAULT_CIPHERS : AcceptableCiphers) (SSLv23_METHOD : Z)
    (openssl_methods : gmap string Z)
    (load_object : option string -> result FactoryClass)
    (settings_arg : Settings) (crawler : Crawler) (m : Z)
    (c : AcceptableCiphers) (hostname : bytes) (port : Z) (w : world) :
  openssl_methods_getitem openssl_methods
    (DOWNLOADER_CLIENT_TLS_METHOD settings_arg) = Ok m ->
  load_object (DOWNLOADER_CLIENTCONTEXTFACTORY settings_arg) =
    Ok (ScrapyClientContextFactory_class SSL fromOpenSSLCipherString
          DEFAULT_CIPHERS SSLv23_METHOD) ->
  match DOWNLOADER_CLIENT_TLS_CIPHERS (settings crawler) with
  | Some (String a s) => fromOpenSSLCipherString (String a s)
  | _ => Ok DEFAULT_CIPHERS
  end = Ok c ->
  is_ascii hostname = true ->
  let f := {| _ssl_method := m;
              tls_verbose_logging :=
                DOWNLOADER_CLIENT_TLS_VERBOSE_LOGGING (settings crawler);
              tls_ciphers := c |} in
  let run :=
    (factory <- load_context_factory_from_settings openssl_methods load_object
                  settings_arg crawler ;;
     ScrapyClientContextFactory.creatorForNetloc SSL factory hostname port) w in
  run.1 = Ok (S (S (length (heap w)))) /\
  heap run.2 =
    heap w ++
      [CFactory f;
       CContext (context_of SSL f);
       CTLSOptions {| _hostname := string_of_list_byte hostname;
                      _ctx := S (length (heap w));
                      verbose_logging :=
                        DOWNLOADER_CLIENT_TLS_VERBOSE_LOGGING (settings crawler) |}].
Proof.
  intros Hm Hcls Hc Hascii f run. unfold run, bind.
  rewrite (resolver_stock_class_ok SSL fromOpenSSLCipherString DEFAULT_CIPHERS
             SSLv23_METHOD openssl_methods load_object settings_arg crawler m c
             w Hm Hcls Hc).
  cbv beta iota.
  match goal with
  | |- context [ScrapyClientContextFactory.creatorForNetloc _ _ _ _ ?W] =>
      assert (H1 : heap W !! length (heap w) = Some (CFactory f))
        by apply lookup_fresh;
      rewrite (creatorForNetloc_spec SSL (length (heap w)) f W hostname port
                 H1 Hascii)
  end.
  simpl. rewrite length_app, <- app_assoc. simpl.
  by replace (length (heap w) + 1)%nat with (S (length (heap w))) by lia.
Qed.

Lemma settings_reach_the_connection_witness :
  openssl_methods_getitem method_table
    (DOWNLOADER_CLIENT_TLS_METHOD
       {| DOWNLOADER_CLIENT_TLS_METHOD := Some "TLSv1.2";
          DOWNLOADER_CLIENT_TLS_VERBOSE_LOGGING := true;
          DOWNLOADER_CLIENT_TLS_CIPHERS := Some "IGNORED";
          DOWNLOADER_CLIENTCONTEXTFACTORY :=
            Some "scrapy.core.downloader.contextfactory.ScrapyClientContextFactory" |})
    = Ok 6 /\
  is_ascii example_com = true /\
  let run :=
    (factory <- load_context_factory_from_settings method_table load_by_path
                  {| DOWNLOADER_CLIENT_TLS_METHOD := Some "TLSv1.2";
                     DOWNLOADER_CLIENT_TLS_VERBOSE_LOGGING := true;
                     DOWNLOADER_CLIENT_TLS_CIPHERS := Some "IGNORED";
                     DOWNLOADER_CLIENTCONTEXTFACTORY :=
                       Some "scrapy.core.downloader.contextfactory.ScrapyClientContextFactory" |}
                  base_crawler ;;
     ScrapyClientContextFactory.creatorForNetloc SSL_modern factory example_com 443)
      empty_world in
  run.1 = Ok 2%nat /\
  heap run.2 =
    [CFactory {| _ssl_method := 6; tls_verbose_logging := false;
                 tls_ciphers := default_bundle |};
     CContext (context_of SSL_modern
                 {| _ssl_method := 6; tls_verbose_logging := false;
                    tls_ciphers := default_bundle |});
     CTLSOptions {| _hostname := "example.com"; _ctx := 1%nat;
                    verbose_logging := false |}].
Proof.
  split; [reflexivity|]. split; [reflexivity|].
  exact (settings_reach_the_connection SSL_modern parse_one_name default_bundle 3
           method_table load_by_path
           {| DOWNLOADER_CLIENT_TLS_METHOD := Some "TLSv1.2";
              DOWNLOADER_CLIENT_TLS_VERBOSE_LOGGING := true;
              DOWNLOADER_CLIENT_TLS_CIPHERS := Some "IGNORED";
              DOWNLOADER_CLIENTCONTEXTFACTORY :=
                Some "scrapy.core.downloader.contextfactory.ScrapyClientContextFactory" |}
           base_crawler 6 default_bundle example_com 443 empty_world
           eq_refl eq_refl eq_refl eq_refl).
Defined.
